(** * FormAI: the sensor ingestion pipeline of [cs_205_app.py]

    A shallow embedding of the [/data] route and the helpers it calls
    ([_to_datetime], [_extract_xyz], [_extract_wrist_motion_accel],
    [_extract_wrist_motion_gyro], [_convert_accel], [_convert_gyro]), with the
    sixteen module-level deques as an explicit state and Python exceptions as
    an explicit outcome.

    Python floats are IEEE binary64 numbers: they are Rocq's primitive floats.
    What the program takes from the Python runtime and not from its own text
    (the [datetime] type with [datetime.fromtimestamp] and its order, [float]
    on a string, [str] on a float or a container) is the interface [Runtime];
    every general theorem holds for every runtime. *)

From Stdlib Require Import ZArith String Ascii List Bool Floats Lia.
From Stdlib Require Import DecimalString.
Import ListNotations.

Set Warnings "-register-all,-inexact-float".
#[local] Open Scope string_scope.
#[local] Open Scope list_scope.

(** ** Python values, as [json.loads] produces them *)

Inductive pyval : Type :=
| PNone
| PBool (b : bool)
| PInt (z : Z)
| PFloat (f : float)
| PStr (s : string)
| PList (l : list pyval)
| PDict (d : list (string * pyval)).

(** The exceptions the route can meet. *)
Inductive exn : Type :=
| AttributeError
| TypeError
| ValueError
| OverflowError.

Inductive result (A : Type) : Type :=
| Ok (a : A)
| Raise (e : exn).
Arguments Ok {A} a.
Arguments Raise {A} e.

Definition is_ok {A} (r : result A) : bool :=
  match r with Ok _ => true | Raise _ => false end.

Definition is_none (v : pyval) : bool :=
  match v with PNone => true | _ => false end.

Definition is_dict (v : pyval) : bool :=
  match v with PDict _ => true | _ => false end.

(** Truth value of an object: [None], [False], zero, and the empty string,
    list and dict are false ([nan] is true, [-0.0] is false). *)
Definition truthy (v : pyval) : bool :=
  match v with
  | PNone => false
  | PBool b => b
  | PInt z => negb (z =? 0)%Z
  | PFloat f => negb (f =? 0)%float
  | PStr s => negb (s =? "")
  | PList l => match l with [] => false | _ => true end
  | PDict d => match d with [] => false | _ => true end
  end.

(** [a or b]. *)
Definition py_or (a b : pyval) : pyval := if truthy a then a else b.

(** A JSON object is a dict in key order; a lookup takes the first binding of
    the key. *)
Fixpoint dict_find (d : list (string * pyval)) (k : string) : option pyval :=
  match d with
  | [] => None
  | (k', v) :: d' => if k' =? k then Some v else dict_find d' k
  end.

(** [d.get(k)]: the value, or [None]. *)
Definition dict_get (d : list (string * pyval)) (k : string) : pyval :=
  match dict_find d k with Some v => v | None => PNone end.

(** [d.get(k, default)]. *)
Definition dict_get_default (d : list (string * pyval)) (k : string) (dflt : pyval) : pyval :=
  match dict_find d k with Some v => v | None => dflt end.

(** [s.lower()] on the bytes of [s]. Python lowers by code point; the only
    letter outside ASCII whose lower case is an ASCII letter is the Kelvin
    sign (to [k]), and no name or unit the program compares with holds a
    [k], so membership in those tuples is the same. *)
Definition lower_ascii (c : ascii) : ascii :=
  let n := nat_of_ascii c in
  if ((65 <=? n) && (n <=? 90))%nat then ascii_of_nat (n + 32) else c.

Fixpoint lower (s : string) : string :=
  match s with
  | EmptyString => EmptyString
  | String c s' => String (lower_ascii c) (lower s')
  end.

(** [s in (a, b, ...)] for a tuple of strings. *)
Definition str_in (s : string) (l : list string) : bool := existsb (String.eqb s) l.

(** [float(n)] for an int: the nearest binary64 number, ties to even;
    [OverflowError] when that is not finite. *)
Definition float_of_int (z : Z) : result float :=
  let f := SF2Prim (binary_normalize prec emax z 0 false) in
  if is_infinity f then Raise OverflowError else Ok f.

(** [math.pi], printed [3.141592653589793]. *)
Definition math_pi : float := 0x1.921fb54442d18p+1%float.

(** Standard gravity, the literal [9.80665]: as in Python, the binary64
    number nearest to it, [0x1.39d013a92a305p+3]. *)
Definition STANDARD_GRAVITY : float := 9.80665%float.

(** ** The Python runtime *)

Class Runtime : Type := {
  (** [datetime.datetime] *)
  datetime : Type;
  (** [datetime.fromtimestamp(seconds)]; [None] when it raises (a value out of
      range, an infinity or a nan). *)
  fromtimestamp : float -> option datetime;
  (** [a > b] on two datetimes. *)
  dt_gt : datetime -> datetime -> bool;
  (** [float(s)] for a string; [None] when it raises [ValueError]. *)
  float_of_str : string -> option float;
  (** [str(v)] for a float, a list or a dict. *)
  py_repr : pyval -> string
}.

Section Pipeline.

Context {RT : Runtime}.

(** [str(v)]. *)
Definition py_str (v : pyval) : string :=
  match v with
  | PStr s => s
  | PNone => "None"
  | PBool true => "True"
  | PBool false => "False"
  | PInt z => NilZero.string_of_int (Z.to_int z)
  | _ => py_repr v
  end.

(** [float(v)]. *)
Definition py_float (v : pyval) : result float :=
  match v with
  | PFloat f => Ok f
  | PInt z => float_of_int z
  | PBool b => Ok (if b then 1 else 0)%float
  | PStr s => match float_of_str s with Some f => Ok f | None => Raise ValueError end
  | PNone | PList _ | PDict _ => Raise TypeError
  end.

(** ** Configuration (lines 46-49) *)

Record config : Type := {
  WATCH_DEVICE_ID : option string;
  ACCEL_UNITS : string;
  GYRO_UNITS : string
}.

(** [os.environ.get(k) or dflt]. *)
Definition env_or (env : string -> option string) (k dflt : string) : string :=
  match env k with
  | Some s => if s =? "" then dflt else s
  | None => dflt
  end.

Definition config_of_env (env : string -> option string) : config :=
  {| WATCH_DEVICE_ID := env "WATCH_DEVICE_ID";
     ACCEL_UNITS := lower (env_or env "ACCEL_UNITS" "m_s2");
     GYRO_UNITS := lower (env_or env "GYRO_UNITS" "rad_s") |}.

(** ** Helpers (lines 52-118) *)

(** The magnitude heuristic of [_to_datetime]: the local [seconds]. *)
Definition seconds_of (v : float) : float :=
  if (1e17 <? v)%float then (v / 1e9)%float
  else if (1e14 <? v)%float then (v / 1e6)%float
  else if (1e11 <? v)%float then (v / 1e3)%float
  else v.

(** Every exception inside is caught and turned into [None]. *)
Definition _to_datetime (value : pyval) : option datetime :=
  match value with
  | PNone => None
  | _ =>
      match py_float value with
      | Ok v => fromtimestamp (seconds_of v)
      | Raise _ => None
      end
  end.

Definition _extract_xyz (values : pyval) : option (pyval * pyval * pyval) :=
  match values with
  | PNone => None
  | PDict d => Some (dict_get d "x", dict_get d "y", dict_get d "z")
  | PList (v0 :: v1 :: v2 :: _) => Some (v0, v1, v2)
  | _ => None
  end.

Definition _extract_wrist_motion_accel (values : pyval) : option (pyval * pyval * pyval) :=
  match values with
  | PDict d =>
      Some (dict_get d "accelerationX", dict_get d "accelerationY", dict_get d "accelerationZ")
  | _ => None
  end.

Definition _extract_wrist_motion_gyro (values : pyval) : option (pyval * pyval * pyval) :=
  match values with
  | PDict d =>
      Some (dict_get d "rotationRateX", dict_get d "rotationRateY", dict_get d "rotationRateZ")
  | _ => None
  end.

Definition accel_is_g (cfg : config) : bool :=
  str_in (ACCEL_UNITS cfg) ["g"; "gee"; "grav"].

Definition gyro_is_deg (cfg : config) : bool :=
  str_in (GYRO_UNITS cfg) ["deg_s"; "deg/s"; "degrees_per_second"; "degrees_s"].

(** The stored value is a float, or [None] for a [None] input. *)
Definition _convert_accel (cfg : config) (v : pyval) : result (option float) :=
  match v with
  | PNone => Ok None
  | _ =>
      match py_float v with
      | Ok f => Ok (Some (if accel_is_g cfg then (f * STANDARD_GRAVITY)%float else f))
      | Raise e => Raise e
      end
  end.

Definition _convert_gyro (cfg : config) (v : pyval) : result (option float) :=
  match v with
  | PNone => Ok None
  | _ =>
      match py_float v with
      | Ok f => Ok (Some (if gyro_is_deg cfg then (f * (math_pi / 180))%float else f))
      | Raise e => Raise e
      end
  end.

(** ** The buffers (lines 23-44)

    A ChannelSet is the four deques of one device and sensor: in the source
    [iphone_time_accel], [iphone_accel_x], [iphone_accel_y], [iphone_accel_z]
    for [IphoneAccel], and likewise for the three others. *)

Definition MAX_DATA_POINTS : nat := 1000.

(** [deque(maxlen=MAX_DATA_POINTS).append(x)]: a full deque drops its oldest
    entry. *)
Definition deque_append {A : Type} (q : list A) (x : A) : list A :=
  if (length q <? MAX_DATA_POINTS)%nat then q ++ [x] else tl q ++ [x].

(** [q[-1]] of a deque that is not empty. *)
Fixpoint peek_last {A : Type} (q : list A) : option A :=
  match q with
  | [] => None
  | [x] => Some x
  | _ :: q' => peek_last q'
  end.

Record channels : Type := {
  ch_time : list datetime;
  ch_x : list (option float);
  ch_y : list (option float);
  ch_z : list (option float)
}.

Record state : Type := {
  iphone_accel : channels;
  iphone_gyro : channels;
  watch_accel : channels;
  watch_gyro : channels
}.

Inductive channel_set : Type := IphoneAccel | IphoneGyro | WatchAccel | WatchGyro.

Inductive axis : Type := AxisX | AxisY | AxisZ.

Definition empty_channels : channels :=
  {| ch_time := []; ch_x := []; ch_y := []; ch_z := [] |}.

(** The state at process start. *)
Definition initial_state : state :=
  {| iphone_accel := empty_channels; iphone_gyro := empty_channels;
     watch_accel := empty_channels; watch_gyro := empty_channels |}.

Definition sel (c : channel_set) (st : state) : channels :=
  match c with
  | IphoneAccel => iphone_accel st
  | IphoneGyro => iphone_gyro st
  | WatchAccel => watch_accel st
  | WatchGyro => watch_gyro st
  end.

Definition upd (c : channel_set) (f : channels -> channels) (st : state) : state :=
  match c with
  | IphoneAccel =>
      {| iphone_accel := f (iphone_accel st); iphone_gyro := iphone_gyro st;
         watch_accel := watch_accel st; watch_gyro := watch_gyro st |}
  | IphoneGyro =>
      {| iphone_accel := iphone_accel st; iphone_gyro := f (iphone_gyro st);
         watch_accel := watch_accel st; watch_gyro := watch_gyro st |}
  | WatchAccel =>
      {| iphone_accel := iphone_accel st; iphone_gyro := iphone_gyro st;
         watch_accel := f (watch_accel st); watch_gyro := watch_gyro st |}
  | WatchGyro =>
      {| iphone_accel := iphone_accel st; iphone_gyro := iphone_gyro st;
         watch_accel := watch_accel st; watch_gyro := f (watch_gyro st) |}
  end.

Definition push_time (ts : datetime) (c : channels) : channels :=
  {| ch_time := deque_append (ch_time c) ts; ch_x := ch_x c; ch_y := ch_y c; ch_z := ch_z c |}.

Definition push_axis (a : axis) (v : option float) (c : channels) : channels :=
  match a with
  | AxisX => {| ch_time := ch_time c; ch_x := deque_append (ch_x c) v; ch_y := ch_y c; ch_z := ch_z c |}
  | AxisY => {| ch_time := ch_time c; ch_x := ch_x c; ch_y := deque_append (ch_y c) v; ch_z := ch_z c |}
  | AxisZ => {| ch_time := ch_time c; ch_x := ch_x c; ch_y := ch_y c; ch_z := deque_append (ch_z c) v |}
  end.

(** ** Statements that mutate the buffers and may raise

    A raised exception keeps every mutation made before it: the deques are
    module globals. *)

Definition M (A : Type) : Type := state -> result A * state.

Definition ret {A : Type} (a : A) : M A := fun st => (Ok a, st).

Definition raise {A : Type} (e : exn) : M A := fun st => (Raise e, st).

Definition bind {A B : Type} (m : M A) (k : A -> M B) : M B :=
  fun st =>
    match m st with
    | (Ok a, st') => k a st'
    | (Raise e, st') => (Raise e, st')
    end.

Definition lift {A : Type} (r : result A) : M A := fun st => (r, st).

Definition get_state : M state := fun st => (Ok st, st).

Definition modify (f : state -> state) : M unit := fun st => (Ok tt, f st).

End Pipeline.

Declare Scope py_scope.
Delimit Scope py_scope with py.
Notation "x <- m ;; k" := (bind m (fun x => k))
  (at level 61, m at next level, right associativity) : py_scope.
Notation "m ;; k" := (bind m (fun _ => k))
  (at level 61, right associativity) : py_scope.

Section Route.

Context {RT : Runtime}.
#[local] Open Scope py_scope.

(** [len(q) == 0 or ts > q[-1]] on the time deque of a ChannelSet. *)
Definition time_guard (q : list datetime) (ts : datetime) : bool :=
  match peek_last q with
  | None => true
  | Some t => dt_gt ts t
  end.

(** The guarded block of four appends, written four times in the source
    (lines 449-453, 458-462, 473-477, 479-483): the ChannelSet [c] and the
    converter [conv] are what differs. *)
Definition guarded_append (c : channel_set) (conv : pyval -> result (option float))
    (ts : datetime) (x y z : pyval) : M unit :=
  st <- get_state ;;
  if time_guard (ch_time (sel c st)) ts then
    modify (upd c (push_time ts)) ;;
    x' <- lift (conv x) ;;
    modify (upd c (push_axis AxisX x')) ;;
    y' <- lift (conv y) ;;
    modify (upd c (push_axis AxisY y')) ;;
    z' <- lift (conv z) ;;
    modify (upd c (push_axis AxisZ z'))
  else ret tt.

(** [a is not None and b is not None and c is not None]. *)
Definition all_present (xyz : pyval * pyval * pyval) : bool :=
  let '(x, y, z) := xyz in negb (is_none x) && negb (is_none y) && negb (is_none z).

(** The wrist-motion branch, one channel family (lines 446-453 and 455-462). *)
Definition wrist_family (c : channel_set) (conv : pyval -> result (option float))
    (ts : datetime) (xyz : option (pyval * pyval * pyval)) : M unit :=
  match xyz with
  | Some (x, y, z) =>
      if all_present (x, y, z) then guarded_append c conv ts x y z else ret tt
  | None => ret tt
  end.

(** The locals [name], [ts_raw] and [values_obj] of the loop body
    (lines 432-436), for a record that is a dict. *)
Definition name_of (kv : list (string * pyval)) : string :=
  lower (py_str (py_or (py_or (dict_get kv "name") (dict_get kv "sensor")) (PStr ""))).

Definition ts_raw_of (kv : list (string * pyval)) : pyval :=
  py_or (py_or (dict_get kv "time") (dict_get kv "timestamp")) (dict_get kv "ts").

Definition values_obj_of (kv : list (string * pyval)) : pyval :=
  py_or (py_or (dict_get kv "values") (dict_get kv "value")) (dict_get kv "data").

Definition WRIST_NAMES : list string := ["wrist motion"; "wristmotion"].
Definition ACCEL_NAMES : list string := ["accelerometer"; "accel"].
Definition GYRO_NAMES : list string := ["gyroscope"; "gyro"].

(** The body of the loop over the records (lines 432-483); [continue] is the
    early [ret tt]. A record that is not a dict has no [get]. *)
Definition record_body (cfg : config) (d : pyval) : M unit :=
  match d with
  | PDict kv =>
      let name := name_of kv in
      let ts := _to_datetime (ts_raw_of kv) in
      let values_obj := values_obj_of kv in
      match ts with
      | None => ret tt
      | Some ts =>
          if str_in name WRIST_NAMES then
            let accel_xyz := _extract_wrist_motion_accel values_obj in
            let gyro_xyz := _extract_wrist_motion_gyro values_obj in
            wrist_family WatchAccel (_convert_accel cfg) ts accel_xyz ;;
            wrist_family WatchGyro (_convert_gyro cfg) ts gyro_xyz
          else
            match _extract_xyz values_obj with
            | None => ret tt
            | Some (x, y, z) =>
                if str_in name ACCEL_NAMES then
                  guarded_append IphoneAccel (_convert_accel cfg) ts x y z
                else if str_in name GYRO_NAMES then
                  guarded_append IphoneGyro (_convert_gyro cfg) ts x y z
                else ret tt
            end
      end
  | _ => raise AttributeError
  end.

(** [for d in l: body]: an exception leaves the loop. *)
Fixpoint for_each (body : pyval -> M unit) (l : list pyval) : M unit :=
  match l with
  | [] => ret tt
  | d :: l' => body d ;; for_each body l'
  end.

Fixpoint chars (s : string) : list pyval :=
  match s with
  | EmptyString => []
  | String c s' => PStr (String c EmptyString) :: chars s'
  end.

(** What [for d in v] iterates over: the elements of a list, the keys of a
    dict, the characters of a string; [TypeError] for any other value. *)
Definition py_iter (v : pyval) : result (list pyval) :=
  match v with
  | PList l => Ok l
  | PDict d => Ok (map (fun kv => PStr (fst kv)) d)
  | PStr s => Ok (chars s)
  | PNone | PBool _ | PInt _ | PFloat _ => Raise TypeError
  end.

(** ** The request and the route (lines 415-485) *)

Record request : Type := {
  (** the request's content type is JSON *)
  is_json : bool;
  (** [json.loads] of the body; [None] when it raises *)
  body_json : option pyval
}.

(** ["success"] (status 200) and [("bad request", 400)]. *)
Inductive response : Type := Success | BadRequest.

(** [request.get_json(silent=True)]. *)
Definition get_json_silent (r : request) : pyval :=
  if is_json r then
    match body_json r with Some v => v | None => PNone end
  else PNone.

(** The records loop over [payload_obj.get('payload', [])] and the final
    [return "success"]. *)
Definition ingest (cfg : config) (payload_obj : pyval) : M response :=
  match payload_obj with
  | PDict kv =>
      l <- lift (py_iter (dict_get_default kv "payload" (PList []))) ;;
      for_each (record_body cfg) l ;;
      ret Success
  | _ => raise AttributeError
  end.

(** [if WATCH_DEVICE_ID:]. *)
Definition filter_configured (cfg : config) : option string :=
  match WATCH_DEVICE_ID cfg with
  | Some w => if w =? "" then None else Some w
  | None => None
  end.

(** The batch's device identifier, the local [device_id] (line 427). *)
Definition device_id_of (kv : list (string * pyval)) : pyval :=
  py_or (dict_get kv "deviceId") (dict_get kv "device_id").

Definition handle (cfg : config) (payload_obj : pyval) : M response :=
  match filter_configured cfg with
  | Some w =>
      match payload_obj with
      | PDict kv =>
          let device_id := device_id_of kv in
          if negb (is_none device_id) && negb (py_str device_id =? w) then ret Success
          else ingest cfg payload_obj
      | _ => raise AttributeError
      end
  | None => ingest cfg payload_obj
  end.

Definition data (cfg : config) (r : request) : M response :=
  let payload_obj := get_json_silent r in
  if is_none payload_obj then
    match body_json r with
    | Some payload_obj => handle cfg payload_obj
    | None => ret BadRequest
    end
  else handle cfg payload_obj.

End Route.

(** ** A runtime to evaluate the route on

    Datetimes are microseconds since the epoch on a UTC clock, for the years
    1 to 9999 that [datetime] holds. Of [float] on a string and [str] on a
    float or a container it has only what the examples below use: a plain
    decimal integer parses, any other string does not, and the text of a
    float or a container is a placeholder no name or identifier equals. *)

Module Utc.

Definition round_half_even (n d : Z) : Z :=
  let q := (n / d)%Z in
  let r := (n mod d)%Z in
  if (2 * r <? d)%Z then q
  else if (d <? 2 * r)%Z then (q + 1)%Z
  else if Z.even q then q else (q + 1)%Z.

Definition MIN_MICROS : Z := (-62135596800 * 1000000)%Z.
Definition MAX_MICROS : Z := (253402300800 * 1000000)%Z.

Definition micros_of (f : float) : option Z :=
  let in_range (us : Z) :=
    if ((MIN_MICROS <=? us) && (us <? MAX_MICROS))%Z then Some us else None in
  match Prim2SF f with
  | S754_zero _ => Some 0%Z
  | S754_finite s m e =>
      let n := (Zpos m * 1000000)%Z in
      let us := if (0 <=? e)%Z then (n * 2 ^ e)%Z else round_half_even n (2 ^ (- e)) in
      in_range (if s then (- us)%Z else us)
  | S754_infinity _ | S754_nan => None
  end.

Fixpoint all_digits (s : string) : bool :=
  match s with
  | EmptyString => true
  | String c s' =>
      let n := nat_of_ascii c in ((48 <=? n) && (n <=? 57))%nat && all_digits s'
  end.

Fixpoint digits_value (acc : Z) (s : string) : Z :=
  match s with
  | EmptyString => acc
  | String c s' => digits_value (10 * acc + Z.of_nat (nat_of_ascii c - 48))%Z s'
  end.

Definition parse_float (s : string) : option float :=
  match s with
  | EmptyString => None
  | _ =>
      if all_digits s then
        match float_of_int (digits_value 0 s) with Ok f => Some f | Raise _ => None end
      else None
  end.

#[export] Instance runtime : Runtime := {|
  datetime := Z;
  fromtimestamp := micros_of;
  dt_gt := Z.gtb;
  float_of_str := parse_float;
  py_repr := fun _ => "<object>"
|}.

End Utc.


(** ** What the claims speak of *)

Section Notions.

Context {RT : Runtime}.

(** One synchronized append of a sample (time, x, y, z) to a ChannelSet, in
    the order of the four [append] calls. *)
Definition push_sample (ts : datetime) (x y z : option float) (c : channels) : channels :=
  push_axis AxisZ z (push_axis AxisY y (push_axis AxisX x (push_time ts c))).

(** The four deques of a ChannelSet have one length. *)
Definition same_lengths (c : channels) : Prop :=
  length (ch_x c) = length (ch_time c) /\
  length (ch_y c) = length (ch_time c) /\
  length (ch_z c) = length (ch_time c).

Definition synchronized (st : state) : Prop :=
  forall c : channel_set, same_lengths (sel c st).

(** Each stored time is later than the one before it. *)
Fixpoint increasing (q : list datetime) : Prop :=
  match q with
  | [] => True
  | t :: q' =>
      match q' with
      | [] => True
      | t' :: _ => dt_gt t' t = true
      end /\ increasing q'
  end.

Definition times_increasing (st : state) : Prop :=
  forall c : channel_set, increasing (ch_time (sel c st)).

(** An axis value the converters accept: [None], or a value [float] takes. *)
Definition convertible (v : pyval) : bool := is_none v || is_ok (py_float v).

(** A converter that accepts every convertible value. *)
Definition accepts (conv : pyval -> result (option float)) : Prop :=
  forall v, convertible v = true -> exists r, conv v = Ok r.

(** Every axis value a values container can hand to a converter is accepted. *)
Definition values_ok (values : pyval) : bool :=
  match values with
  | PDict d => forallb (fun kv => convertible (snd kv)) d
  | PList l => forallb convertible l
  | _ => true
  end.

(** The record is left at the timestamp check or names no known sensor. *)
Definition skipped (kv : list (string * pyval)) : bool :=
  match _to_datetime (ts_raw_of kv) with
  | None => true
  | Some _ => negb (str_in (name_of kv) (WRIST_NAMES ++ ACCEL_NAMES ++ GYRO_NAMES))
  end.

(** A record object that is skipped, or whose axis values are accepted. *)
Definition record_ok (d : pyval) : bool :=
  match d with
  | PDict kv => skipped kv || values_ok (values_obj_of kv)
  | _ => false
  end.

(** The device filter rejects the batch (lines 426-429). *)
Definition filtered_out (cfg : config) (kv : list (string * pyval)) : bool :=
  match filter_configured cfg with
  | Some w => negb (is_none (device_id_of kv)) && negb (py_str (device_id_of kv) =? w)
  | None => false
  end.

(** A zero of either numeric type. *)
Definition numeric_zero (v : pyval) : bool :=
  match v with
  | PInt z => (z =? 0)%Z
  | PFloat f => (f =? 0)%float
  | _ => false
  end.

(** A statement keeps [P] whenever it ends without an exception. *)
Definition keeps_on_ok {A : Type} (P : state -> Prop) (m : M A) : Prop :=
  forall st a st', P st -> m st = (Ok a, st') -> P st'.

(** A statement keeps [P] however it ends. *)
Definition keeps_always {A : Type} (P : state -> Prop) (m : M A) : Prop :=
  forall st, P st -> P (snd (m st)).

(** [a > b] is a strict order on datetimes. *)
Definition strict_order : Prop :=
  (forall t, dt_gt t t = false) /\
  (forall a b c, dt_gt a b = true -> dt_gt b c = true -> dt_gt a c = true).

(** The route, then the next request on the state it left: an exception is
    answered with a 500 by the server and the process goes on. *)
Fixpoint run_requests (cfg : config) (rs : list request) (st : state) : state :=
  match rs with
  | [] => st
  | r :: rs' => run_requests cfg rs' (snd (data cfg r st))
  end.

(** Every request of the sequence is answered: none raises. *)
Fixpoint all_answered (cfg : config) (rs : list request) (st : state) : bool :=
  match rs with
  | [] => true
  | r :: rs' =>
      is_ok (fst (data cfg r st)) && all_answered cfg rs' (snd (data cfg r st))
  end.

End Notions.

(** ** Sample requests *)

Module Samples.

Import Utc.

Definition no_filter : config :=
  {| WATCH_DEVICE_ID := None; ACCEL_UNITS := "m_s2"; GYRO_UNITS := "rad_s" |}.

Definition filter_abc : config :=
  {| WATCH_DEVICE_ID := Some "abc"; ACCEL_UNITS := "m_s2"; GYRO_UNITS := "rad_s" |}.

Definition gravitational : config :=
  {| WATCH_DEVICE_ID := None; ACCEL_UNITS := "g"; GYRO_UNITS := "deg_s" |}.

Definition post (body : pyval) : request :=
  {| is_json := true; body_json := Some body |}.

Definition batch (records : list pyval) : pyval :=
  PDict [("payload", PList records)].

Definition xyz (x y z : pyval) : pyval := PDict [("x", x); ("y", y); ("z", z)].

Definition reading (name : string) (time values : pyval) : pyval :=
  PDict [("name", PStr name); ("time", time); ("values", values)].

(** [{"name": "accelerometer", "time": 1700000000, "values": {"x": 1.0, "y": 2.0}}] *)
Definition accel_without_z : pyval :=
  reading "accelerometer" (PInt 1700000000) (PDict [("x", PFloat 1); ("y", PFloat 2)]).

(** [{"name": "accel", "time": 1700000000, "values": {"x": "abc", "y": 1, "z": 2}}] *)
Definition accel_bad_x : pyval :=
  reading "accel" (PInt 1700000000) (xyz (PStr "abc") (PInt 1) (PInt 2)).

(** [{"name": "accel", "time": 1700000001, "values": {"x": 1, "y": 2, "z": 3}}] *)
Definition accel_good : pyval :=
  reading "accel" (PInt 1700000001) (xyz (PInt 1) (PInt 2) (PInt 3)).

Definition fields_of (d : pyval) : list (string * pyval) :=
  match d with PDict kv => kv | _ => [] end.

(** [{"name": "gyroscope", "time": 0, "values": [1, 2, 3]}] *)
Definition gyro_at_zero : pyval :=
  reading "gyroscope" (PInt 0) (PList [PInt 1; PInt 2; PInt 3]).

Definition wrist_values : list (string * pyval) :=
  [("accelerationX", PFloat 0.5); ("accelerationY", PFloat 1); ("accelerationZ", PFloat 2);
   ("rotationRateX", PFloat 90); ("rotationRateY", PFloat 180); ("rotationRateZ", PFloat 0.25)].

(** A wrist-motion record in nanoseconds. *)
Definition wrist_record : list (string * pyval) :=
  [("name", PStr "Wrist Motion"); ("time", PInt 1700000000000000000);
   ("values", PDict wrist_values)].

Definition wrist_values_without_z : list (string * pyval) :=
  [("accelerationX", PFloat 0.5); ("accelerationY", PFloat 1);
   ("rotationRateX", PFloat 90); ("rotationRateY", PFloat 180); ("rotationRateZ", PFloat 0.25)].

(** The same record with no [accelerationZ]. *)
Definition wrist_without_z : pyval :=
  reading "wrist motion" (PInt 1700000000000000000) (PDict wrist_values_without_z).

(** A record of a sensor the route does not know. *)
Definition barometer : pyval :=
  reading "barometer" (PInt 1700000000) (PDict [("pressure", PStr "high")]).

(** [{"deviceId": "xyz", "payload": [...]}] *)
Definition batch_from (device : pyval) (records : list pyval) : list (string * pyval) :=
  [("deviceId", device); ("payload", PList records)].

(** A state with one sample at 1700000000 s in the handheld accelerometer. *)
Definition one_sample : state :=
  {| iphone_accel :=
       {| ch_time := [1700000000000000%Z]; ch_x := [Some 1%float];
          ch_y := [Some 2%float]; ch_z := [Some 3%float] |};
     iphone_gyro := empty_channels;
     watch_accel := empty_channels;
     watch_gyro := empty_channels |}.

End Samples.

(** ** The graph callback (lines 250-412)

    [update_graph] reads the sixteen deques and builds four figures. Of a
    figure the model keeps what the function computes from the deques (the
    three traces and the two axis ranges) and the texts that tell the figures
    apart; the fixed styling of the layout is left to Plotly. *)

Section Graphs.

Context {RT : Runtime}.

(** [a < b] on two stored axis values: [None] is not ordered. *)
Definition py_lt (a b : option float) : result bool :=
  match a, b with
  | Some x, Some y => Ok (x <? y)%float
  | _, _ => Raise TypeError
  end.

(** [min(l)]: the first item is the best so far, a later item replaces it
    when [item < best]; [ValueError] on an empty list. *)
Fixpoint min_from (best : option float) (rest : list (option float)) : result (option float) :=
  match rest with
  | [] => Ok best
  | item :: rest' =>
      match py_lt item best with
      | Ok true => min_from item rest'
      | Ok false => min_from best rest'
      | Raise e => Raise e
      end
  end.

Definition py_min (l : list (option float)) : result (option float) :=
  match l with
  | [] => Raise ValueError
  | first :: rest => min_from first rest
  end.

(** [max(l)]: a later item replaces the best when [item > best]. *)
Fixpoint max_from (best : option float) (rest : list (option float)) : result (option float) :=
  match rest with
  | [] => Ok best
  | item :: rest' =>
      match py_lt best item with
      | Ok true => max_from item rest'
      | Ok false => max_from best rest'
      | Raise e => Raise e
      end
  end.

Definition py_max (l : list (option float)) : result (option float) :=
  match l with
  | [] => Raise ValueError
  | first :: rest => max_from first rest
  end.

(** [min] and [max] of the time deque, which is not empty where they are
    called; [item < best] on datetimes is [best > item]. *)
Fixpoint dt_min_from (best : datetime) (rest : list datetime) : datetime :=
  match rest with
  | [] => best
  | item :: rest' => if dt_gt best item then dt_min_from item rest' else dt_min_from best rest'
  end.

Fixpoint dt_max_from (best : datetime) (rest : list datetime) : datetime :=
  match rest with
  | [] => best
  | item :: rest' => if dt_gt item best then dt_max_from item rest' else dt_max_from best rest'
  end.

(** [(_ymax - _ymin) * 0.1 if _ymax != _ymin else 0.5]. [None != None] is
    false; [None] differs from a float and then cannot be subtracted. *)
Definition pad_of (ymin ymax : option float) : result float :=
  match ymax, ymin with
  | Some hi, Some lo => Ok (if negb (hi =? lo)%float then ((hi - lo) * 0.1)%float else 0.5%float)
  | None, None => Ok 0.5%float
  | _, _ => Raise TypeError
  end.

(** [[_ymin - _pad, _ymax + _pad]]. *)
Definition y_range_of (ymin ymax : option float) (pad : float) : result (float * float) :=
  match ymin, ymax with
  | Some lo, Some hi => Ok ((lo - pad)%float, (hi + pad)%float)
  | _, _ => Raise TypeError
  end.

(** One [go.Scatter]: the time deque against one axis deque. *)
Record trace : Type := {
  tr_x : list datetime;
  tr_y : list (option float);
  tr_name : string;
  tr_color : string
}.

Record figure : Type := {
  fig_data : list trace;
  fig_title : string;
  fig_ytitle : string;
  fig_xrange : option (datetime * datetime);
  fig_yrange : option (float * float)
}.

(** The texts of one of the four figures. *)
Record figure_texts : Type := {
  ft_title : string;
  ft_ytitle : string;
  ft_names : string * string * string;
  ft_colors : string * string * string
}.

Definition traces_of (txt : figure_texts) (c : channels) : list trace :=
  let '(nx, ny, nz) := ft_names txt in
  let '(cx, cy, cz) := ft_colors txt in
  [ {| tr_x := ch_time c; tr_y := ch_x c; tr_name := nx; tr_color := cx |};
    {| tr_x := ch_time c; tr_y := ch_y c; tr_name := ny; tr_color := cy |};
    {| tr_x := ch_time c; tr_y := ch_z c; tr_name := nz; tr_color := cz |} ].

(** [list(x) + list(y) + list(z)]. *)
Definition all_values (c : channels) : list (option float) :=
  ch_x c ++ ch_y c ++ ch_z c.

(** One figure: the block written four times in [update_graph]
    (lines 260-296, 298-334, 336-372, 374-410). *)
Definition graph_of (txt : figure_texts) (c : channels) : result figure :=
  match ch_time c with
  | [] =>
      Ok {| fig_data := traces_of txt c; fig_title := ft_title txt;
            fig_ytitle := ft_ytitle txt; fig_xrange := None; fig_yrange := None |}
  | t0 :: ts =>
      match py_min (all_values c) with
      | Raise e => Raise e
      | Ok ymin =>
          match py_max (all_values c) with
          | Raise e => Raise e
          | Ok ymax =>
              match pad_of ymin ymax with
              | Raise e => Raise e
              | Ok pad =>
                  match y_range_of ymin ymax pad with
                  | Raise e => Raise e
                  | Ok yr =>
                      Ok {| fig_data := traces_of txt c; fig_title := ft_title txt;
                            fig_ytitle := ft_ytitle txt;
                            fig_xrange := Some (dt_min_from t0 ts, dt_max_from t0 ts);
                            fig_yrange := Some yr |}
                  end
              end
          end
      end
  end.

Definition texts_of (c : channel_set) : figure_texts :=
  match c with
  | IphoneAccel =>
      {| ft_title := "iPhone Accelerometer"; ft_ytitle := "Acceleration (m/s²)";
         ft_names := ("Ax", "Ay", "Az"); ft_colors := ("#FF6B6B", "#4ECDC4", "#45B7D1") |}
  | IphoneGyro =>
      {| ft_title := "iPhone Gyroscope"; ft_ytitle := "Angular Velocity (rad/s)";
         ft_names := ("Gx", "Gy", "Gz"); ft_colors := ("#FF6B6B", "#4ECDC4", "#45B7D1") |}
  | WatchAccel =>
      {| ft_title := "Apple Watch Accelerometer"; ft_ytitle := "Acceleration (m/s²)";
         ft_names := ("Ax", "Ay", "Az"); ft_colors := ("#28A745", "#20C997", "#17A2B8") |}
  | WatchGyro =>
      {| ft_title := "Apple Watch Gyroscope"; ft_ytitle := "Angular Velocity (rad/s)";
         ft_names := ("Gx", "Gy", "Gz"); ft_colors := ("#FFC107", "#FD7E14", "#DC3545") |}
  end.

(** The four figures in the order they are built and returned; the first
    exception ends the callback. *)
Definition update_graph (st : state) : result (figure * figure * figure * figure) :=
  match graph_of (texts_of IphoneAccel) (iphone_accel st) with
  | Raise e => Raise e
  | Ok g1 =>
      match graph_of (texts_of IphoneGyro) (iphone_gyro st) with
      | Raise e => Raise e
      | Ok g2 =>
          match graph_of (texts_of WatchAccel) (watch_accel st) with
          | Raise e => Raise e
          | Ok g3 =>
              match graph_of (texts_of WatchGyro) (watch_gyro st) with
              | Raise e => Raise e
              | Ok g4 => Ok (g1, g2, g3, g4)
              end
          end
      end
  end.

(** ** What the further properties speak of *)

(** Every stored axis value of the ChannelSet is a float. *)
Definition no_none (c : channels) : Prop :=
  Forall (fun v => v <> None) (all_values c).

(** No deque of the ChannelSet is longer than its [maxlen]. *)
Definition within_capacity (c : channels) : Prop :=
  (length (ch_time c) <= MAX_DATA_POINTS)%nat /\
  (length (ch_x c) <= MAX_DATA_POINTS)%nat /\
  (length (ch_y c) <= MAX_DATA_POINTS)%nat /\
  (length (ch_z c) <= MAX_DATA_POINTS)%nat.

(** A time the guard of [st] turns away is turned away by [st'] too, on
    every ChannelSet. *)
Definition advances (st st' : state) : Prop :=
  forall (c : channel_set) (ts : datetime),
    time_guard (ch_time (sel c st)) ts = false ->
    time_guard (ch_time (sel c st')) ts = false.

(** [q.append(x)] for each [x] of [l], in order. *)
Definition deque_extend {A : Type} (q : list A) (l : list A) : list A :=
  fold_left deque_append l q.

(** The ChannelSets a record of this sensor name can write to. *)
Definition targets (name : string) : list channel_set :=
  if str_in name WRIST_NAMES then [WatchAccel; WatchGyro]
  else if str_in name ACCEL_NAMES then [IphoneAccel]
  else if str_in name GYRO_NAMES then [IphoneGyro]
  else [].

(** The guarded blocks a record can reach: on one of its target
    ChannelSets, with one of the two converters, and on a wrist ChannelSet
    only with three values that are not [None]. *)
Definition reachable_block (cfg : config) (d : pyval) (c : channel_set)
    (conv : pyval -> result (option float)) (x y z : pyval) : Prop :=
  match d with
  | PDict kv => In c (targets (name_of kv))
  | _ => False
  end
  /\ (conv = _convert_accel cfg \/ conv = _convert_gyro cfg)
  /\ (In c [WatchAccel; WatchGyro] -> all_present (x, y, z) = true).

End Graphs.

(** ** Further sample requests *)

Module MoreSamples.

Import Utc.

Definition filter_123 : config :=
  {| WATCH_DEVICE_ID := Some "123"; ACCEL_UNITS := "m_s2"; GYRO_UNITS := "rad_s" |}.

(** [{"sensor": "Gyro", "ts": "1700000002", "data": [0.1, 0.2, 0.3, 9]}] *)
Definition gyro_other_keys : pyval :=
  PDict [("sensor", PStr "Gyro"); ("ts", PStr "1700000002");
         ("data", PList [PFloat 0.1; PFloat 0.2; PFloat 0.3; PInt 9])].

(** [{"name": "accelerometer", "time": 1700000003, "values": [1, 2]}] *)
Definition accel_short_list : pyval :=
  Samples.reading "accelerometer" (PInt 1700000003) (PList [PInt 1; PInt 2]).

(** [{"name": "wrist motion", "time": 1700000003, "values": [1, 2, 3]}] *)
Definition wrist_with_list : pyval :=
  Samples.reading "wrist motion" (PInt 1700000003) (PList [PInt 1; PInt 2; PInt 3]).

(** [{"name": "accel", "time": "soon", "values": {"x": "a", "y": "b", "z": "c"}}] *)
Definition accel_bad_time : pyval :=
  Samples.reading "accel" (PStr "soon") (Samples.xyz (PStr "a") (PStr "b") (PStr "c")).

(** A wrist-motion record and a handheld record that is stale on
    [Samples.one_sample]. *)
Definition mixed_records : list pyval :=
  [PDict Samples.wrist_record; Samples.accel_without_z].

(** A state whose handheld accelerometer holds a [None]. *)
Definition with_none : state :=
  {| iphone_accel :=
       {| ch_time := [1700000000000000%Z]; ch_x := [Some 1%float];
          ch_y := [Some 2%float]; ch_z := [None] |};
     iphone_gyro := empty_channels;
     watch_accel := empty_channels;
     watch_gyro := empty_channels |}.

(** A ChannelSet with three samples. *)
Definition three_samples : channels :=
  {| ch_time := [1700000000000000%Z; 1700000001000000%Z; 1700000002500000%Z];
     ch_x := [Some 1%float; Some 0.5%float; Some 2%float];
     ch_y := [Some 0%float; Some 0%float; Some 0%float];
     ch_z := [Some 9.5%float; Some 10%float; Some (-1)%float] |}.

End MoreSamples.

(** * Theorems

    A statement with a [Runtime] binder holds for every runtime; a closed
    example runs on [Utc.runtime]. *)

#[local] Existing Instance Utc.runtime.

Section Facts.

Context {RT : Runtime}.

Lemma sel_upd_same (c : channel_set) (f : channels -> channels) (st : state) :
  sel c (upd c f st) = f (sel c st).
Proof. destruct c; reflexivity. Qed.

Lemma sel_upd_other (c c' : channel_set) (f : channels -> channels) (st : state) :
  c <> c' -> sel c (upd c' f st) = sel c st.
Proof. destruct c, c'; intros H; try reflexivity; contradiction H; reflexivity. Qed.

Lemma upd_upd (c : channel_set) (f h : channels -> channels) (st : state) :
  upd c f (upd c h st) = upd c (fun x => f (h x)) st.
Proof. destruct c; reflexivity. Qed.

Lemma str_in_In (s : string) (l : list string) : str_in s l = true <-> In s l.
Proof.
  unfold str_in. rewrite existsb_exists. split.
  - intros [x [Hin Heq]]. apply String.eqb_eq in Heq. now subst.
  - intros Hin. exists s. split; [assumption | apply String.eqb_refl].
Qed.

Lemma for_each_one (body : pyval -> M unit) (d : pyval) (st st' : state) :
  body d st = (Ok tt, st') -> for_each body [d] st = (Ok tt, st').
Proof. intros H. cbn [for_each]. unfold bind. rewrite H. reflexivity. Qed.

(** The guard passed and the three values converted: the sample is appended. *)
Lemma guarded_append_pass (c : channel_set) (conv : pyval -> result (option float))
    (ts : datetime) (x y z : pyval) (fx fy fz : option float) (st : state) :
  conv x = Ok fx -> conv y = Ok fy -> conv z = Ok fz ->
  time_guard (ch_time (sel c st)) ts = true ->
  guarded_append c conv ts x y z st = (Ok tt, upd c (push_sample ts fx fy fz) st).
Proof.
  intros Hx Hy Hz Hg.
  unfold guarded_append, bind, get_state, modify, lift. rewrite Hg, Hx, Hy, Hz.
  rewrite !upd_upd. reflexivity.
Qed.

(** The guard failed: nothing happens. *)
Lemma guarded_append_drop (c : channel_set) (conv : pyval -> result (option float))
    (ts : datetime) (x y z : pyval) (st : state) :
  time_guard (ch_time (sel c st)) ts = false ->
  guarded_append c conv ts x y z st = (Ok tt, st).
Proof.
  intros Hg. unfold guarded_append, bind, get_state. rewrite Hg. reflexivity.
Qed.

Lemma time_guard_spec (q : list datetime) (ts : datetime) :
  time_guard q ts = true <->
  q = [] \/ exists t, peek_last q = Some t /\ dt_gt ts t = true.
Proof.
  unfold time_guard. destruct q as [|t0 q'].
  - split; [now left | reflexivity].
  - destruct (peek_last (t0 :: q')) as [t|] eqn:E.
    + split.
      * intros H. right. exists t. now split.
      * intros [H | [t' [H1 H2]]]; [discriminate | congruence].
    + split; [intros _ | reflexivity].
      exfalso. clear ts. revert t0 E. induction q' as [|a q' IH]; intros t0 E.
      * discriminate.
      * apply (IH a). exact E.
Qed.

End Facts.

(** ** The timestamp normalizer *)

(** C5: for every numeric raw timestamp [v], [_to_datetime] converts it to
    seconds by magnitude before it builds the datetime: [v / 1e9] when
    [v > 1e17], else [v / 1e6] when [v > 1e14], else [v / 1e3] when
    [v > 1e11], else [v] unchanged; an int is first made a float. The inputs
    1.70e9, 1.70e12, 1.70e15 and 1.70e18 all give 1.70e9 seconds, exactly, so
    the four are one instant. *)
Theorem to_datetime_by_magnitude {RT : Runtime} (v : float) (n : Z) :
  _to_datetime (PFloat v) =
    fromtimestamp
      (if (1e17 <? v)%float then (v / 1e9)%float
       else if (1e14 <? v)%float then (v / 1e6)%float
       else if (1e11 <? v)%float then (v / 1e3)%float
       else v)
  /\ _to_datetime (PInt n) =
       match float_of_int n with
       | Ok v' => _to_datetime (PFloat v')
       | Raise _ => None
       end
  /\ seconds_of 1.70e9 = 1.70e9%float
  /\ seconds_of 1.70e12 = (1.70e12 / 1e3)%float
  /\ seconds_of 1.70e15 = (1.70e15 / 1e6)%float
  /\ seconds_of 1.70e18 = (1.70e18 / 1e9)%float
  /\ _to_datetime (PFloat 1.70e12) = _to_datetime (PFloat 1.70e9)
  /\ _to_datetime (PFloat 1.70e15) = _to_datetime (PFloat 1.70e9)
  /\ _to_datetime (PFloat 1.70e18) = _to_datetime (PFloat 1.70e9)
  /\ _to_datetime (PInt 1700000000000000000) = _to_datetime (PFloat 1.70e9).
Proof.
  split; [reflexivity|].
  split.
  { unfold _to_datetime at 1. cbn [py_float]. destruct (float_of_int n); reflexivity. }
  repeat split; vm_compute; reflexivity.
Qed.

(** ** The unit converters *)

(** C9: for every numeric scalar [v], [_convert_accel] returns
    [v * 9.80665] when the configured acceleration unit is one of "g", "gee",
    "grav" and [v] unchanged otherwise; [_convert_gyro] returns
    [v * (pi / 180)] when the configured unit is one of "deg_s", "deg/s",
    "degrees_per_second", "degrees_s" and [v] unchanged otherwise (an int is
    first made a float). Acceleration 1.0 under "g" gives 9.80665 and angular
    velocity 180.0 under "deg_s" gives [math.pi]. *)
Theorem unit_conversion {RT : Runtime} (cfg : config) (v : float) (n : Z) :
  _convert_accel cfg (PFloat v) =
    Ok (Some (if accel_is_g cfg then (v * 9.80665)%float else v))
  /\ _convert_gyro cfg (PFloat v) =
       Ok (Some (if gyro_is_deg cfg then (v * (math_pi / 180.0))%float else v))
  /\ (accel_is_g cfg = true <-> In (ACCEL_UNITS cfg) ["g"; "gee"; "grav"])
  /\ (gyro_is_deg cfg = true <->
      In (GYRO_UNITS cfg) ["deg_s"; "deg/s"; "degrees_per_second"; "degrees_s"])
  /\ _convert_accel cfg (PInt n) =
       match float_of_int n with
       | Ok v' => _convert_accel cfg (PFloat v')
       | Raise e => Raise e
       end
  /\ _convert_gyro cfg (PInt n) =
       match float_of_int n with
       | Ok v' => _convert_gyro cfg (PFloat v')
       | Raise e => Raise e
       end
  /\ _convert_accel Samples.gravitational (PFloat 1.0) = Ok (Some 9.80665%float)
  /\ _convert_gyro Samples.gravitational (PFloat 180.0) = Ok (Some math_pi)
  /\ _convert_accel Samples.no_filter (PFloat 1.0) = Ok (Some 1.0%float)
  /\ _convert_gyro Samples.no_filter (PFloat 180.0) = Ok (Some 180.0%float).
Proof.
  split; [reflexivity|].
  split; [reflexivity|].
  split; [apply str_in_In|].
  split; [apply str_in_In|].
  split.
  { unfold _convert_accel at 1. cbn [py_float]. destruct (float_of_int n); reflexivity. }
  split.
  { unfold _convert_gyro at 1. cbn [py_float]. destruct (float_of_int n); reflexivity. }
  repeat split; vm_compute; reflexivity.
Qed.

(** ** The falsy timestamp *)

(** C10: a record whose [time] field is the number 0 and which has no
    [timestamp] and no [ts] field is skipped: the chain
    [time or timestamp or ts] is [None], the record appends nothing to any
    buffer and raises nothing, although [_to_datetime] itself takes 0 as the
    timestamp of the epoch. *)
Theorem zero_time_is_absent {RT : Runtime} (cfg : config)
    (kv : list (string * pyval)) (t : pyval) (st : state) :
  dict_find kv "time" = Some t ->
  numeric_zero t = true ->
  dict_find kv "timestamp" = None ->
  dict_find kv "ts" = None ->
  ts_raw_of kv = PNone
  /\ record_body cfg (PDict kv) st = (Ok tt, st)
  /\ for_each (record_body cfg) [PDict kv] st = (Ok tt, st)
  /\ _to_datetime (PInt 0) = fromtimestamp 0%float.
Proof.
  intros Ht Hz Hts1 Hts2.
  assert (Hraw : ts_raw_of kv = PNone).
  { unfold ts_raw_of, dict_get. rewrite Ht, Hts1, Hts2.
    assert (Hf : truthy t = false).
    { destruct t; try discriminate; cbn in Hz |- *; now rewrite Hz. }
    unfold py_or. rewrite Hf. reflexivity. }
  assert (Hbody : record_body cfg (PDict kv) st = (Ok tt, st)).
  { unfold record_body. rewrite Hraw. reflexivity. }
  split; [exact Hraw|].
  split; [exact Hbody|].
  split.
  - now apply for_each_one.
  - vm_compute. reflexivity.
Qed.

Lemma zero_time_is_absent_witness :
  ts_raw_of (Samples.fields_of Samples.gyro_at_zero) = PNone
  /\ record_body (RT := Utc.runtime) Samples.no_filter Samples.gyro_at_zero Samples.one_sample
     = (Ok tt, Samples.one_sample)
  /\ for_each (record_body (RT := Utc.runtime) Samples.no_filter) [Samples.gyro_at_zero]
       Samples.one_sample
     = (Ok tt, Samples.one_sample)
  /\ _to_datetime (RT := Utc.runtime) (PInt 0) = Some 0%Z.
Proof.
  exact (zero_time_is_absent (RT := Utc.runtime) Samples.no_filter
           (Samples.fields_of Samples.gyro_at_zero) (PInt 0) Samples.one_sample
           eq_refl eq_refl eq_refl eq_refl).
Defined.

(** ** The monotonic-time guard *)

Lemma push_sample_fields {RT : Runtime} (ts : datetime) (x y z : option float) (c : channels) :
  push_sample ts x y z c =
    {| ch_time := deque_append (ch_time c) ts;
       ch_x := deque_append (ch_x c) x;
       ch_y := deque_append (ch_y c) y;
       ch_z := deque_append (ch_z c) z |}.
Proof. reflexivity. Qed.

(** C6: an append of a complete sample (its three values convert) to a
    ChannelSet appends the 4-tuple exactly when the time deque is empty or
    the new time is greater than the last stored time; otherwise the sample
    is dropped without an exception and the whole state, so every buffer's
    length and contents, is unchanged. With [>] a strict order, a sample
    with the last stored time (a duplicate) or with an earlier one (out of
    order) is dropped. *)
Theorem append_is_guarded {RT : Runtime} (c : channel_set)
    (conv : pyval -> result (option float)) (ts : datetime) (x y z : pyval)
    (fx fy fz : option float) (st : state) :
  conv x = Ok fx -> conv y = Ok fy -> conv z = Ok fz ->
  (time_guard (ch_time (sel c st)) ts = true <->
     ch_time (sel c st) = [] \/
     exists t, peek_last (ch_time (sel c st)) = Some t /\ dt_gt ts t = true)
  /\ guarded_append c conv ts x y z st =
       (Ok tt,
        if time_guard (ch_time (sel c st)) ts
        then upd c (push_sample ts fx fy fz) st
        else st)
  /\ (forall t, peek_last (ch_time (sel c st)) = Some t -> dt_gt ts t = false ->
      guarded_append c conv ts x y z st = (Ok tt, st))
  /\ (strict_order ->
      forall t, peek_last (ch_time (sel c st)) = Some t ->
      (ts = t \/ dt_gt t ts = true) ->
      guarded_append c conv ts x y z st = (Ok tt, st)).
Proof.
  intros Hx Hy Hz.
  assert (Hdrop : forall t, peek_last (ch_time (sel c st)) = Some t -> dt_gt ts t = false ->
                  guarded_append c conv ts x y z st = (Ok tt, st)).
  { intros t Hlast Hgt. apply guarded_append_drop.
    unfold time_guard. rewrite Hlast. exact Hgt. }
  split; [apply time_guard_spec|].
  split.
  { destruct (time_guard (ch_time (sel c st)) ts) eqn:Hg.
    - now apply guarded_append_pass.
    - now apply guarded_append_drop. }
  split; [exact Hdrop|].
  intros [Hirr Htr] t Hlast Hle. apply (Hdrop t Hlast).
  destruct Hle as [-> | Hlt]; [apply Hirr|].
  destruct (dt_gt ts t) eqn:Hgt; [|reflexivity].
  rewrite <- (Hirr t). symmetry. now apply (Htr t ts t).
Qed.

Lemma append_is_guarded_witness :
  guarded_append (RT := Utc.runtime) IphoneAccel (_convert_accel Samples.no_filter)
      1700000001000000%Z (PInt 1) (PInt 2) (PInt 3) Samples.one_sample
    = (Ok tt,
       upd IphoneAccel
         (push_sample (RT := Utc.runtime) 1700000001000000%Z
            (Some 1%float) (Some 2%float) (Some 3%float))
         Samples.one_sample)
  /\ guarded_append (RT := Utc.runtime) IphoneAccel (_convert_accel Samples.no_filter)
       1700000000000000%Z (PInt 1) (PInt 2) (PInt 3) Samples.one_sample
     = (Ok tt, Samples.one_sample).
Proof.
  split.
  - exact (proj1 (proj2 (append_is_guarded (RT := Utc.runtime) IphoneAccel
             (_convert_accel Samples.no_filter) 1700000001000000%Z
             (PInt 1) (PInt 2) (PInt 3)
             (Some 1%float) (Some 2%float) (Some 3%float) Samples.one_sample
             eq_refl eq_refl eq_refl))).
  - exact (proj1 (proj2 (proj2 (append_is_guarded (RT := Utc.runtime) IphoneAccel
             (_convert_accel Samples.no_filter) 1700000000000000%Z
             (PInt 1) (PInt 2) (PInt 3)
             (Some 1%float) (Some 2%float) (Some 3%float) Samples.one_sample
             eq_refl eq_refl eq_refl)))
           1700000000000000%Z eq_refl eq_refl).
Defined.

(** ** Wrist motion: two families from one record *)

Lemma all_present_true (x y z : pyval) :
  is_none x = false -> is_none y = false -> is_none z = false ->
  all_present (x, y, z) = true.
Proof. intros Hx Hy Hz. unfold all_present. now rewrite Hx, Hy, Hz. Qed.

(** C7: a wrist-motion record whose values mapping holds the six keys
    accelerationX/Y/Z and rotationRateX/Y/Z with values that are not [None]
    (sensor values: the converters take them) and whose timestamp passes the
    guards of the two wrist ChannelSets appends one sample to the wrist
    accelerometer and one to the wrist gyroscope, with the record's time, and
    leaves the two handheld ChannelSets as they were; so does a batch of this
    one record. *)
Theorem wrist_record_feeds_both {RT : Runtime} (cfg : config)
    (kv vals : list (string * pyval)) (ts : datetime)
    (ax ay az gx gy gz : option float) (st : state) :
  str_in (name_of kv) WRIST_NAMES = true ->
  _to_datetime (ts_raw_of kv) = Some ts ->
  values_obj_of kv = PDict vals ->
  is_none (dict_get vals "accelerationX") = false ->
  is_none (dict_get vals "accelerationY") = false ->
  is_none (dict_get vals "accelerationZ") = false ->
  is_none (dict_get vals "rotationRateX") = false ->
  is_none (dict_get vals "rotationRateY") = false ->
  is_none (dict_get vals "rotationRateZ") = false ->
  _convert_accel cfg (dict_get vals "accelerationX") = Ok ax ->
  _convert_accel cfg (dict_get vals "accelerationY") = Ok ay ->
  _convert_accel cfg (dict_get vals "accelerationZ") = Ok az ->
  _convert_gyro cfg (dict_get vals "rotationRateX") = Ok gx ->
  _convert_gyro cfg (dict_get vals "rotationRateY") = Ok gy ->
  _convert_gyro cfg (dict_get vals "rotationRateZ") = Ok gz ->
  time_guard (ch_time (watch_accel st)) ts = true ->
  time_guard (ch_time (watch_gyro st)) ts = true ->
  let st' :=
    {| iphone_accel := iphone_accel st;
       iphone_gyro := iphone_gyro st;
       watch_accel := push_sample ts ax ay az (watch_accel st);
       watch_gyro := push_sample ts gx gy gz (watch_gyro st) |} in
  record_body cfg (PDict kv) st = (Ok tt, st')
  /\ forall top : list (string * pyval),
       dict_find top "payload" = Some (PList [PDict kv]) ->
       ingest cfg (PDict top) st = (Ok Success, st').
Proof.
  intros Hname Hts Hvals Nax Nay Naz Ngx Ngy Ngz Cax Cay Caz Cgx Cgy Cgz Ga Gg st'.
  assert (Hbody : record_body cfg (PDict kv) st = (Ok tt, st')).
  { unfold record_body. rewrite Hts, Hname, Hvals.
    cbn [_extract_wrist_motion_accel _extract_wrist_motion_gyro wrist_family].
    rewrite (all_present_true _ _ _ Nax Nay Naz), (all_present_true _ _ _ Ngx Ngy Ngz).
    unfold bind at 1.
    rewrite (guarded_append_pass WatchAccel _ ts _ _ _ _ _ _ st Cax Cay Caz Ga).
    rewrite (guarded_append_pass WatchGyro _ ts _ _ _ _ _ _
               (upd WatchAccel (push_sample ts ax ay az) st) Cgx Cgy Cgz Gg).
    reflexivity. }
  split; [exact Hbody|].
  intros top Htop. unfold ingest, dict_get_default. rewrite Htop.
  cbn [py_iter lift]. unfold bind at 1 2. unfold lift.
  rewrite (for_each_one (record_body cfg) (PDict kv) st st' Hbody). reflexivity.
Qed.

Lemma wrist_record_feeds_both_witness :
  record_body Samples.no_filter (PDict Samples.wrist_record) Samples.one_sample
  = (Ok tt,
     {| iphone_accel := iphone_accel Samples.one_sample;
        iphone_gyro := empty_channels;
        watch_accel :=
          {| ch_time := [1700000000000000%Z]; ch_x := [Some 0.5%float];
             ch_y := [Some 1%float]; ch_z := [Some 2%float] |};
        watch_gyro :=
          {| ch_time := [1700000000000000%Z]; ch_x := [Some 90%float];
             ch_y := [Some 180%float]; ch_z := [Some 0.25%float] |} |}).
Proof.
  exact (proj1 (wrist_record_feeds_both Samples.no_filter
                  Samples.wrist_record Samples.wrist_values 1700000000000000%Z
                  (Some 0.5%float) (Some 1%float) (Some 2%float)
                  (Some 90%float) (Some 180%float) (Some 0.25%float)
                  Samples.one_sample
                  eq_refl eq_refl eq_refl eq_refl eq_refl eq_refl eq_refl eq_refl eq_refl
                  eq_refl eq_refl eq_refl eq_refl eq_refl eq_refl eq_refl eq_refl)).
Defined.

(** ** The device filter *)

(** The two parses of the body agree: the route depends on [json.loads] of
    the body alone. *)
Lemma data_unfold {RT : Runtime} (cfg : config) (r : request) :
  data cfg r =
    match body_json r with
    | Some payload_obj => handle cfg payload_obj
    | None => ret BadRequest
    end.
Proof.
  unfold data, get_json_silent.
  destruct (is_json r), (body_json r) as [v|]; try reflexivity.
  destruct v; reflexivity.
Qed.



(** ** When the route answers *)

Section Answers.

Context {RT : Runtime}.

Lemma convert_accel_accepts (cfg : config) : accepts (_convert_accel cfg).
Proof.
  intros v Hv. unfold convertible in Hv. unfold _convert_accel.
  destruct v; cbn in Hv |- *; try discriminate; eauto;
    match goal with
    | |- context [match ?e with Ok _ => _ | Raise _ => _ end] =>
        destruct e; [eauto | discriminate]
    end.
Qed.

Lemma convert_gyro_accepts (cfg : config) : accepts (_convert_gyro cfg).
Proof.
  intros v Hv. unfold convertible in Hv. unfold _convert_gyro.
  destruct v; cbn in Hv |- *; try discriminate; eauto;
    match goal with
    | |- context [match ?e with Ok _ => _ | Raise _ => _ end] =>
        destruct e; [eauto | discriminate]
    end.
Qed.

Lemma dict_get_convertible (d : list (string * pyval)) (k : string) :
  forallb (fun kv => convertible (snd kv)) d = true ->
  convertible (dict_get d k) = true.
Proof.
  unfold dict_get. induction d as [|[k' v] d IH]; intros H.
  - reflexivity.
  - cbn in H. apply andb_true_iff in H. destruct H as [Hv Hd].
    cbn [dict_find]. destruct (k' =? k); [exact Hv | now apply IH].
Qed.

Lemma extract_xyz_convertible (values x y z : pyval) :
  values_ok values = true ->
  _extract_xyz values = Some (x, y, z) ->
  convertible x = true /\ convertible y = true /\ convertible z = true.
Proof.
  intros Hok Hex. destruct values; try discriminate.
  - destruct l as [|v0 [|v1 [|v2 l]]]; try discriminate.
    injection Hex as <- <- <-. cbn in Hok.
    repeat (apply andb_true_iff in Hok; destruct Hok as [? Hok]). auto.
  - injection Hex as <- <- <-. cbn in Hok.
    repeat split; now apply dict_get_convertible.
Qed.

(** With converted values the guarded block never raises. *)
Lemma guarded_append_total (c : channel_set) (conv : pyval -> result (option float))
    (ts : datetime) (x y z : pyval) (st : state) :
  accepts conv ->
  convertible x = true -> convertible y = true -> convertible z = true ->
  exists st', guarded_append c conv ts x y z st = (Ok tt, st').
Proof.
  intros Hc Hx Hy Hz.
  destruct (Hc x Hx) as [fx Ex], (Hc y Hy) as [fy Ey], (Hc z Hz) as [fz Ez].
  destruct (time_guard (ch_time (sel c st)) ts) eqn:Hg.
  - eexists. now apply (guarded_append_pass c conv ts x y z fx fy fz st Ex Ey Ez).
  - eexists. now apply guarded_append_drop.
Qed.

Lemma wrist_family_total (c : channel_set) (conv : pyval -> result (option float))
    (ts : datetime) (xyz : option (pyval * pyval * pyval)) (st : state) :
  accepts conv ->
  (forall x y z, xyz = Some (x, y, z) ->
     convertible x = true /\ convertible y = true /\ convertible z = true) ->
  exists st', wrist_family c conv ts xyz st = (Ok tt, st').
Proof.
  intros Hc Hxyz. unfold wrist_family.
  destruct xyz as [[[x y] z]|]; [|eexists; reflexivity].
  destruct (all_present (x, y, z)); [|eexists; reflexivity].
  destruct (Hxyz x y z eq_refl) as [Hx [Hy Hz]].
  now apply guarded_append_total.
Qed.

Lemma str_in_app (s : string) (l1 l2 : list string) :
  str_in s (l1 ++ l2) = str_in s l1 || str_in s l2.
Proof. unfold str_in. apply existsb_app. Qed.

(** A record that is skipped or whose values are accepted raises nothing. *)
Lemma record_body_total (cfg : config) (d : pyval) (st : state) :
  record_ok d = true -> exists st', record_body cfg d st = (Ok tt, st').
Proof.
  intros Hok. destruct d as [| | | | | |kv]; try discriminate.
  cbn [record_ok] in Hok. unfold record_body, skipped in *.
  destruct (_to_datetime (ts_raw_of kv)) as [ts|]; [|eexists; reflexivity].
  rewrite !str_in_app in Hok.
  destruct (str_in (name_of kv) WRIST_NAMES) eqn:Hw.
  - cbn in Hok.
    destruct (wrist_family_total WatchAccel (_convert_accel cfg) ts
                (_extract_wrist_motion_accel (values_obj_of kv)) st
                (convert_accel_accepts cfg)) as [st1 E1].
    { intros x y z E. destruct (values_obj_of kv); try discriminate.
      injection E as <- <- <-. cbn in Hok. repeat split; now apply dict_get_convertible. }
    destruct (wrist_family_total WatchGyro (_convert_gyro cfg) ts
                (_extract_wrist_motion_gyro (values_obj_of kv)) st1
                (convert_gyro_accepts cfg)) as [st2 E2].
    { intros x y z E. destruct (values_obj_of kv); try discriminate.
      injection E as <- <- <-. cbn in Hok. repeat split; now apply dict_get_convertible. }
    exists st2. unfold bind. rewrite E1. exact E2.
  - destruct (_extract_xyz (values_obj_of kv)) as [[[x y] z]|] eqn:Ex; [|eexists; reflexivity].
    destruct (str_in (name_of kv) ACCEL_NAMES) eqn:Ha.
    + cbn in Hok. destruct (extract_xyz_convertible _ _ _ _ Hok Ex) as [Hx [Hy Hz]].
      apply guarded_append_total; auto using convert_accel_accepts.
    + destruct (str_in (name_of kv) GYRO_NAMES) eqn:Hg; [|eexists; reflexivity].
      cbn in Hok. destruct (extract_xyz_convertible _ _ _ _ Hok Ex) as [Hx [Hy Hz]].
      apply guarded_append_total; auto using convert_gyro_accepts.
Qed.

Lemma for_each_total (cfg : config) (l : list pyval) (st : state) :
  forallb record_ok l = true ->
  exists st', for_each (record_body cfg) l st = (Ok tt, st').
Proof.
  revert st. induction l as [|d l IH]; intros st H.
  - eexists. reflexivity.
  - cbn in H. apply andb_true_iff in H. destruct H as [Hd Hl].
    destruct (record_body_total cfg d st Hd) as [st1 E1].
    destruct (IH st1 Hl) as [st2 E2].
    exists st2. cbn [for_each]. unfold bind. rewrite E1. exact E2.
Qed.

(** The loop never answers: only the last line of the route does. *)
Lemma ingest_answers (cfg : config) (payload_obj : pyval) (st : state) :
  fst (ingest cfg payload_obj st) <> Ok BadRequest.
Proof.
  unfold ingest. destruct payload_obj; try (cbn; discriminate).
  unfold bind, lift.
  destruct (py_iter _); [|cbn; discriminate].
  destruct (for_each _ _ _) as [[u|e] st']; cbn; discriminate.
Qed.

Lemma handle_answers (cfg : config) (payload_obj : pyval) (st : state) :
  fst (handle cfg payload_obj st) <> Ok BadRequest.
Proof.
  unfold handle. destruct (filter_configured cfg) as [w|]; [|apply ingest_answers].
  destruct payload_obj; try (cbn; discriminate).
  destruct (negb _ && negb _); [cbn; discriminate | apply ingest_answers].
Qed.

(** A value that is not a dict has no [get]: the first access raises. *)
Lemma handle_not_dict (cfg : config) (v : pyval) (st : state) :
  is_dict v = false -> handle cfg v st = (Raise AttributeError, st).
Proof.
  intros Hv. unfold handle, ingest.
  destruct (filter_configured cfg), v; try discriminate; reflexivity.
Qed.

(** On a dict the route skips the batch or runs the loop. *)
Lemma handle_dict (cfg : config) (kv : list (string * pyval)) (st : state) :
  handle cfg (PDict kv) st = (Ok Success, st) \/
  handle cfg (PDict kv) st = ingest cfg (PDict kv) st.
Proof.
  unfold handle. destruct (filter_configured cfg); [|now right].
  destruct (negb _ && negb _); [now left | now right].
Qed.

End Answers.

(** C3, as the route has it: the answer is a client error (400) exactly when
    the body cannot be parsed as JSON. A body that parses to a JSON object is
    answered with success when the device filter rejects the batch, when it
    has no [payload], and when [payload] is a list of record objects each of
    which is skipped or has axis values the converters accept (so also when
    every record is filtered or skipped). A body that parses to a JSON value
    that is not an object is not answered: the first [get] raises
    [AttributeError] and the state is untouched. *)
Theorem response_contract {RT : Runtime} (cfg : config) (r : request) (st : state) :
  (fst (data cfg r st) = Ok BadRequest <-> body_json r = None)
  /\ (forall v, body_json r = Some v -> is_dict v = false ->
      data cfg r st = (Raise AttributeError, st))
  /\ (forall kv, body_json r = Some (PDict kv) ->
      filtered_out cfg kv = true
      \/ dict_find kv "payload" = None
      \/ (exists l, dict_find kv "payload" = Some (PList l) /\ forallb record_ok l = true) ->
      fst (data cfg r st) = Ok Success).
Proof.
  rewrite data_unfold. split; [|split].
  - destruct (body_json r) as [v|].
    + split; [|discriminate]. intros H. now apply handle_answers in H.
    + split; reflexivity.
  - intros v Hv Hd. rewrite Hv. now apply handle_not_dict.
  - intros kv Hkv Hcase. rewrite Hkv.
    destruct Hcase as [Hf | Hcase].
    { unfold filtered_out in Hf. unfold handle.
      destruct (filter_configured cfg); [|discriminate]. now rewrite Hf. }
    destruct (handle_dict cfg kv st) as [E | E]; rewrite E; [reflexivity|].
    unfold ingest, dict_get_default.
    destruct Hcase as [Hnone | [l [Hl Hok]]].
    + rewrite Hnone. reflexivity.
    + rewrite Hl. cbn [py_iter]. unfold bind at 1. unfold lift.
      destruct (for_each_total cfg l st Hok) as [st' E'].
      unfold bind. rewrite E'. reflexivity.
Qed.

Lemma response_contract_witness :
  fst (data Samples.filter_abc
         (Samples.post (Samples.batch [Samples.gyro_at_zero; Samples.barometer;
                                       Samples.accel_without_z; Samples.accel_good]))
         Samples.one_sample)
  = Ok Success.
Proof.
  apply (proj2 (proj2 (response_contract Samples.filter_abc _ Samples.one_sample))
           (Samples.fields_of
              (Samples.batch [Samples.gyro_at_zero; Samples.barometer;
                              Samples.accel_without_z; Samples.accel_good]))).
  - reflexivity.
  - right. right. eexists. split; reflexivity.
Defined.

(** A JSON array parses, and the route raises on it. *)
Lemma json_array_is_not_answered :
  body_json (Samples.post (PList [])) = Some (PList [])
  /\ data Samples.no_filter (Samples.post (PList [])) initial_state
     = (Raise AttributeError, initial_state).
Proof. split; reflexivity. Qed.

(** ** What the buffers keep

    The times of every ChannelSet stay increasing whatever a request does;
    the four deques of every ChannelSet keep one length over every request
    that is answered. *)

Section Invariants.

Context {RT : Runtime}.

Lemma deque_append_length {A : Type} (q : list A) (x : A) :
  length (deque_append q x) =
    if (length q <? MAX_DATA_POINTS)%nat then S (length q) else length q.
Proof.
  unfold deque_append. destruct (length q <? MAX_DATA_POINTS)%nat eqn:E.
  - rewrite length_app. cbn. lia.
  - apply Nat.ltb_ge in E. rewrite length_app. cbn.
    destruct q as [|a q]; cbn in *; [unfold MAX_DATA_POINTS in E; lia | lia].
Qed.

Lemma push_sample_same_lengths (ts : datetime) (x y z : option float) (c : channels) :
  same_lengths c -> same_lengths (push_sample ts x y z c).
Proof.
  intros [Hx [Hy Hz]]. unfold same_lengths. cbn.
  rewrite !deque_append_length, Hx, Hy, Hz. auto.
Qed.

Lemma upd_synchronized (c : channel_set) (f : channels -> channels) (st : state) :
  (forall ch, same_lengths ch -> same_lengths (f ch)) ->
  synchronized st -> synchronized (upd c f st).
Proof.
  intros Hf Hst c'. specialize (Hf _ (Hst c)).
  destruct c, c'; cbn in *; first [exact Hf | apply (Hst IphoneAccel)
    | apply (Hst IphoneGyro) | apply (Hst WatchAccel) | apply (Hst WatchGyro)].
Qed.

Lemma keeps_on_ok_ret {A : Type} (P : state -> Prop) (a : A) : keeps_on_ok P (ret a).
Proof. intros st a' st' HP E. injection E as _ <-. exact HP. Qed.

Lemma keeps_on_ok_bind {A B : Type} (P : state -> Prop) (m : M A) (k : A -> M B) :
  keeps_on_ok P m -> (forall a, keeps_on_ok P (k a)) -> keeps_on_ok P (bind m k).
Proof.
  intros Hm Hk st b st' HP E. unfold bind in E.
  destruct (m st) as [[a|e] st1] eqn:Em; [|discriminate].
  exact (Hk a st1 b st' (Hm st a st1 HP Em) E).
Qed.

Lemma keeps_always_ret {A : Type} (P : state -> Prop) (a : A) : keeps_always P (ret a).
Proof. intros st HP. exact HP. Qed.

Lemma keeps_always_raise {A : Type} (P : state -> Prop) (e : exn) :
  keeps_always P (@raise RT A e).
Proof. intros st HP. exact HP. Qed.

Lemma keeps_always_bind {A B : Type} (P : state -> Prop) (m : M A) (k : A -> M B) :
  keeps_always P m -> (forall a, keeps_always P (k a)) -> keeps_always P (bind m k).
Proof.
  intros Hm Hk st HP. unfold bind. specialize (Hm st HP).
  destruct (m st) as [[a|e] st1]; cbn in Hm; [exact (Hk a st1 Hm) | exact Hm].
Qed.

(** An answered guarded block did nothing or appended one whole sample. *)
Lemma guarded_append_ok_inv (c : channel_set) (conv : pyval -> result (option float))
    (ts : datetime) (x y z : pyval) (st st' : state) (u : unit) :
  guarded_append c conv ts x y z st = (Ok u, st') ->
  st' = st \/ exists fx fy fz, st' = upd c (push_sample ts fx fy fz) st.
Proof.
  unfold guarded_append, bind, get_state, modify, lift.
  destruct (time_guard (ch_time (sel c st)) ts).
  - destruct (conv x) as [fx|]; [|discriminate].
    destruct (conv y) as [fy|]; [|discriminate].
    destruct (conv z) as [fz|]; [|discriminate].
    intros E. injection E as _ <-. right. exists fx, fy, fz.
    rewrite !upd_upd. reflexivity.
  - intros E. injection E as _ <-. now left.
Qed.

Lemma guarded_append_synchronized (c : channel_set)
    (conv : pyval -> result (option float)) (ts : datetime) (x y z : pyval) :
  keeps_on_ok synchronized (guarded_append c conv ts x y z).
Proof.
  intros st u st' Hst E.
  destruct (guarded_append_ok_inv c conv ts x y z st st' u E) as [-> | [fx [fy [fz ->]]]].
  - exact Hst.
  - apply upd_synchronized; [|exact Hst]. intros ch. apply push_sample_same_lengths.
Qed.

Lemma wrist_family_synchronized (c : channel_set)
    (conv : pyval -> result (option float)) (ts : datetime)
    (xyz : option (pyval * pyval * pyval)) :
  keeps_on_ok synchronized (wrist_family c conv ts xyz).
Proof.
  unfold wrist_family. destruct xyz as [[[x y] z]|]; [|apply keeps_on_ok_ret].
  destruct (all_present (x, y, z)); [apply guarded_append_synchronized | apply keeps_on_ok_ret].
Qed.

Lemma record_body_synchronized (cfg : config) (d : pyval) :
  keeps_on_ok synchronized (record_body cfg d).
Proof.
  unfold record_body. destruct d; try (intros st a st' _ E; discriminate E).
  destruct (_to_datetime _) as [ts|]; [|apply keeps_on_ok_ret].
  destruct (str_in _ WRIST_NAMES).
  - apply keeps_on_ok_bind; [|intros _]; apply wrist_family_synchronized.
  - destruct (_extract_xyz _) as [[[x y] z]|]; [|apply keeps_on_ok_ret].
    destruct (str_in _ ACCEL_NAMES); [apply guarded_append_synchronized|].
    destruct (str_in _ GYRO_NAMES); [apply guarded_append_synchronized | apply keeps_on_ok_ret].
Qed.

Lemma for_each_synchronized (cfg : config) (l : list pyval) :
  keeps_on_ok synchronized (for_each (record_body cfg) l).
Proof.
  induction l as [|d l IH]; cbn [for_each].
  - apply keeps_on_ok_ret.
  - apply keeps_on_ok_bind; [apply record_body_synchronized | intros _; exact IH].
Qed.

Lemma ingest_synchronized (cfg : config) (payload_obj : pyval) :
  keeps_on_ok synchronized (ingest cfg payload_obj).
Proof.
  unfold ingest. destruct payload_obj; try (intros st a st' _ E; discriminate E).
  apply keeps_on_ok_bind.
  - intros st a st' HP E. unfold lift in E. injection E as _ <-. exact HP.
  - intros l. apply keeps_on_ok_bind; [apply for_each_synchronized|].
    intros _. apply keeps_on_ok_ret.
Qed.

Lemma handle_synchronized (cfg : config) (payload_obj : pyval) :
  keeps_on_ok synchronized (handle cfg payload_obj).
Proof.
  unfold handle. destruct (filter_configured cfg); [|apply ingest_synchronized].
  destruct payload_obj; try (intros st a st' _ E; discriminate E).
  destruct (negb _ && negb _); [apply keeps_on_ok_ret | apply ingest_synchronized].
Qed.

(** Every answered request keeps the four deques of every ChannelSet at one
    length. *)
Lemma data_synchronized (cfg : config) (r : request) :
  keeps_on_ok synchronized (data cfg r).
Proof.
  rewrite data_unfold. destruct (body_json r);
    [apply handle_synchronized | apply keeps_on_ok_ret].
Qed.

Lemma initial_state_synchronized : synchronized initial_state.
Proof. intros c. destruct c; repeat split. Qed.

Lemma increasing_snoc (q : list datetime) (ts : datetime) :
  increasing q -> time_guard q ts = true -> increasing (q ++ [ts]).
Proof.
  induction q as [|t q IH]; intros Hq Hg.
  - cbn. auto.
  - destruct q as [|t' q'].
    + cbn in *. auto.
    + destruct Hq as [Ht Hq]. split; [exact Ht|].
      apply IH; [exact Hq | exact Hg].
Qed.

Lemma increasing_tl (q : list datetime) : increasing q -> increasing (tl q).
Proof. destruct q as [|t q]; [auto | intros [_ H]; exact H]. Qed.

Lemma time_guard_tl (q : list datetime) (ts : datetime) :
  time_guard q ts = true -> time_guard (tl q) ts = true.
Proof. destruct q as [|t [|t' q]]; auto. Qed.

Lemma increasing_deque_append (q : list datetime) (ts : datetime) :
  increasing q -> time_guard q ts = true -> increasing (deque_append q ts).
Proof.
  intros Hq Hg. unfold deque_append. destruct (length q <? MAX_DATA_POINTS)%nat.
  - now apply increasing_snoc.
  - apply increasing_snoc; [now apply increasing_tl | now apply time_guard_tl].
Qed.

(** However a guarded block ends, each time deque is as it was or has the new
    time appended under the guard. *)
Lemma guarded_append_times (c : channel_set) (conv : pyval -> result (option float))
    (ts : datetime) (x y z : pyval) (st : state) (c' : channel_set) :
  let st' := snd (guarded_append c conv ts x y z st) in
  ch_time (sel c' st') = ch_time (sel c' st)
  \/ (time_guard (ch_time (sel c' st)) ts = true
      /\ ch_time (sel c' st') = deque_append (ch_time (sel c' st)) ts).
Proof.
  unfold guarded_append, bind, get_state, modify, lift.
  destruct (time_guard (ch_time (sel c st)) ts) eqn:Hg; [|now left].
  destruct (conv x), (conv y), (conv z); destruct c, c'; cbn in *; auto.
Qed.

Lemma guarded_append_increasing (c : channel_set)
    (conv : pyval -> result (option float)) (ts : datetime) (x y z : pyval) :
  keeps_always times_increasing (guarded_append c conv ts x y z).
Proof.
  intros st Hst c'.
  destruct (guarded_append_times c conv ts x y z st c') as [E | [Hg E]]; rewrite E.
  - apply Hst.
  - apply increasing_deque_append; [apply Hst | exact Hg].
Qed.

Lemma wrist_family_increasing (c : channel_set)
    (conv : pyval -> result (option float)) (ts : datetime)
    (xyz : option (pyval * pyval * pyval)) :
  keeps_always times_increasing (wrist_family c conv ts xyz).
Proof.
  unfold wrist_family. destruct xyz as [[[x y] z]|]; [|apply keeps_always_ret].
  destruct (all_present (x, y, z)); [apply guarded_append_increasing | apply keeps_always_ret].
Qed.

Lemma record_body_increasing (cfg : config) (d : pyval) :
  keeps_always times_increasing (record_body cfg d).
Proof.
  unfold record_body. destruct d; try apply keeps_always_raise.
  destruct (_to_datetime _) as [ts|]; [|apply keeps_always_ret].
  destruct (str_in _ WRIST_NAMES).
  - apply keeps_always_bind; [|intros _]; apply wrist_family_increasing.
  - destruct (_extract_xyz _) as [[[x y] z]|]; [|apply keeps_always_ret].
    destruct (str_in _ ACCEL_NAMES); [apply guarded_append_increasing|].
    destruct (str_in _ GYRO_NAMES); [apply guarded_append_increasing | apply keeps_always_ret].
Qed.

Lemma for_each_increasing (cfg : config) (l : list pyval) :
  keeps_always times_increasing (for_each (record_body cfg) l).
Proof.
  induction l as [|d l IH]; cbn [for_each].
  - apply keeps_always_ret.
  - apply keeps_always_bind; [apply record_body_increasing | intros _; exact IH].
Qed.

Lemma ingest_increasing (cfg : config) (payload_obj : pyval) :
  keeps_always times_increasing (ingest cfg payload_obj).
Proof.
  unfold ingest. destruct payload_obj; try apply keeps_always_raise.
  apply keeps_always_bind.
  - intros st HP. exact HP.
  - intros l. apply keeps_always_bind; [apply for_each_increasing|].
    intros _. apply keeps_always_ret.
Qed.

Lemma handle_increasing (cfg : config) (payload_obj : pyval) :
  keeps_always times_increasing (handle cfg payload_obj).
Proof.
  unfold handle. destruct (filter_configured cfg); [|apply ingest_increasing].
  destruct payload_obj; try apply keeps_always_raise.
  destruct (negb _ && negb _); [apply keeps_always_ret | apply ingest_increasing].
Qed.

(** Every request, answered or not, keeps the times of every ChannelSet
    increasing. *)
Lemma data_increasing (cfg : config) (r : request) :
  keeps_always times_increasing (data cfg r).
Proof.
  rewrite data_unfold. destruct (body_json r);
    [apply handle_increasing | apply keeps_always_ret].
Qed.

(** X14: from process start, after any sequence of requests, answered or
    not, the stored times of every ChannelSet are increasing: each is later
    than the one before it. *)
Lemma run_requests_increasing (cfg : config) (rs : list request) :
  times_increasing (run_requests cfg rs initial_state).
Proof.
  assert (H : forall st, times_increasing st -> times_increasing (run_requests cfg rs st)).
  { induction rs as [|r rs IH]; intros st Hst; [exact Hst|].
    cbn [run_requests]. apply IH. now apply data_increasing. }
  apply H. intros c. destruct c; exact I.
Qed.

(** X15: from process start, as long as every request is answered (none
    raises), the four deques of every ChannelSet have one length. *)
Lemma run_requests_synchronized (cfg : config) (rs : list request) :
  all_answered cfg rs initial_state = true ->
  synchronized (run_requests cfg rs initial_state).
Proof.
  generalize initial_state_synchronized. generalize initial_state.
  induction rs as [|r rs IH]; intros st Hst Hok; [exact Hst|].
  cbn [all_answered] in Hok. apply andb_true_iff in Hok. destruct Hok as [Hr Hrs].
  cbn [run_requests]. apply IH; [|exact Hrs].
  destruct (data cfg r st) as [[a|e] st'] eqn:E; [|discriminate].
  exact (data_synchronized cfg r st a st' Hst E).
Qed.

End Invariants.

(** ** Where the route departs from its specification *)

(** C1: a handheld record whose values mapping has no [z] is not discarded:
    the route appends its time, [x] and [y], and [None] to the z deque. The
    wrist path does discard: a wrist-motion record with no [accelerationZ]
    appends nothing to the wrist accelerometer (its complete gyroscope
    triple is appended). *)
Theorem handheld_missing_axis_is_appended :
  data Samples.no_filter (Samples.post (Samples.batch [Samples.accel_without_z])) initial_state
  = (Ok Success,
     {| iphone_accel :=
          {| ch_time := [1700000000000000%Z]; ch_x := [Some 1%float];
             ch_y := [Some 2%float]; ch_z := [None] |};
        iphone_gyro := empty_channels;
        watch_accel := empty_channels;
        watch_gyro := empty_channels |})
  /\ data Samples.no_filter (Samples.post (Samples.batch [Samples.wrist_without_z])) initial_state
     = (Ok Success,
        {| iphone_accel := empty_channels;
           iphone_gyro := empty_channels;
           watch_accel := empty_channels;
           watch_gyro :=
             {| ch_time := [1700000000000000%Z]; ch_x := [Some 90%float];
                ch_y := [Some 180%float]; ch_z := [Some 0.25%float] |} |}).
Proof. split; reflexivity. Qed.

(** C2: an axis value that is not a number makes the route raise. In the
    batch of a record with [x = "abc"] followed by a good record, [float]
    raises [ValueError] after the time of the first record is appended: the
    exception leaves the route and the second record, which alone would be
    appended, is never read. A record that is not an object raises
    [AttributeError] in the same way. *)
Theorem bad_axis_value_escapes :
  data Samples.no_filter
    (Samples.post (Samples.batch [Samples.accel_bad_x; Samples.accel_good])) initial_state
  = (Raise ValueError,
     {| iphone_accel :=
          {| ch_time := [1700000000000000%Z]; ch_x := []; ch_y := []; ch_z := [] |};
        iphone_gyro := empty_channels;
        watch_accel := empty_channels;
        watch_gyro := empty_channels |})
  /\ data Samples.no_filter (Samples.post (Samples.batch [Samples.accel_good])) initial_state
     = (Ok Success,
        {| iphone_accel :=
             {| ch_time := [1700000001000000%Z]; ch_x := [Some 1%float];
                ch_y := [Some 2%float]; ch_z := [Some 3%float] |};
           iphone_gyro := empty_channels;
           watch_accel := empty_channels;
           watch_gyro := empty_channels |})
  /\ data Samples.no_filter
       (Samples.post (Samples.batch [PInt 5; Samples.accel_good])) initial_state
     = (Raise AttributeError, initial_state).
Proof. split; [reflexivity|]. split; reflexivity. Qed.

(** C4: from the empty initial state, the batch of one record with
    [x = "abc"] leaves the handheld accelerometer with one time and no x, y
    or z value: the four deques no longer have one length, and stay so after
    a later good batch. *)
Theorem bad_axis_value_breaks_lengths :
  let st1 :=
    run_requests Samples.no_filter
      [Samples.post (Samples.batch [Samples.accel_bad_x])] initial_state in
  let st2 :=
    run_requests Samples.no_filter
      [Samples.post (Samples.batch [Samples.accel_bad_x]);
       Samples.post (Samples.batch [Samples.accel_good])] initial_state in
  (length (ch_time (iphone_accel st1)) = 1 /\ length (ch_x (iphone_accel st1)) = 0)%nat
  /\ (length (ch_time (iphone_accel st2)) = 2 /\ length (ch_x (iphone_accel st2)) = 1)%nat.
Proof. cbv zeta. split; split; reflexivity. Qed.

(** * Further properties of the code *)

(** ** Properties every statement of the route keeps *)

Section Keeping.

Context {RT : Runtime}.

(** A property kept by the append of a time that passed the guard and by the
    append of a converted value is kept by the guarded block, however it
    ends. *)
Lemma guarded_append_keeps (P : state -> Prop) (c : channel_set)
    (conv : pyval -> result (option float)) (ts : datetime) (x y z : pyval) :
  (forall st, P st -> time_guard (ch_time (sel c st)) ts = true ->
     P (upd c (push_time ts) st)) ->
  (forall st a raw v, P st -> In raw [x; y; z] -> conv raw = Ok v ->
     P (upd c (push_axis a v) st)) ->
  keeps_always P (guarded_append c conv ts x y z).
Proof.
  intros Htime Haxis st HP.
  unfold guarded_append, bind, get_state, modify, lift.
  destruct (time_guard (ch_time (sel c st)) ts) eqn:Hg; [|exact HP].
  pose proof (Htime st HP Hg) as H0.
  destruct (conv x) as [fx|] eqn:Ex; [|exact H0].
  pose proof (Haxis _ AxisX x fx H0 (or_introl eq_refl) Ex) as H1.
  destruct (conv y) as [fy|] eqn:Ey; [|exact H1].
  pose proof (Haxis _ AxisY y fy H1 (or_intror (or_introl eq_refl)) Ey) as H2.
  destruct (conv z) as [fz|] eqn:Ez; [|exact H2].
  exact (Haxis _ AxisZ z fz H2 (or_intror (or_intror (or_introl eq_refl))) Ez).
Qed.

Lemma record_body_keeps (P : state -> Prop) (cfg : config) (d : pyval) :
  (forall c conv ts x y z, reachable_block cfg d c conv x y z ->
     keeps_always P (guarded_append c conv ts x y z)) ->
  keeps_always P (record_body cfg d).
Proof.
  intros Hblock. unfold record_body.
  destruct d as [| | | | | |kv]; try apply keeps_always_raise.
  unfold reachable_block, targets in Hblock.
  destruct (_to_datetime _) as [ts|]; [|apply keeps_always_ret].
  destruct (str_in (name_of kv) WRIST_NAMES).
  - apply keeps_always_bind; [|intros _]; unfold wrist_family.
    + destruct (_extract_wrist_motion_accel _) as [[[x y] z]|]; [|apply keeps_always_ret].
      destruct (all_present (x, y, z)) eqn:E; [|apply keeps_always_ret].
      apply Hblock. cbn. auto.
    + destruct (_extract_wrist_motion_gyro _) as [[[x y] z]|]; [|apply keeps_always_ret].
      destruct (all_present (x, y, z)) eqn:E; [|apply keeps_always_ret].
      apply Hblock. cbn. auto.
  - destruct (_extract_xyz _) as [[[x y] z]|]; [|apply keeps_always_ret].
    destruct (str_in (name_of kv) ACCEL_NAMES).
    + apply Hblock. cbn. repeat split; auto. intros [H|[H|[]]]; discriminate.
    + destruct (str_in (name_of kv) GYRO_NAMES); [|apply keeps_always_ret].
      apply Hblock. cbn. repeat split; auto. intros [H|[H|[]]]; discriminate.
Qed.

Lemma for_each_keeps (P : state -> Prop) (body : pyval -> M unit) (l : list pyval) :
  (forall d, keeps_always P (body d)) -> keeps_always P (for_each body l).
Proof.
  intros Hbody. induction l as [|d l IH]; cbn [for_each].
  - apply keeps_always_ret.
  - apply keeps_always_bind; [apply Hbody | intros _; exact IH].
Qed.

Lemma data_keeps (P : state -> Prop) (cfg : config) (r : request) :
  (forall d, keeps_always P (record_body cfg d)) -> keeps_always P (data cfg r).
Proof.
  intros Hbody.
  assert (Hingest : forall v, keeps_always P (ingest cfg v)).
  { intros v. unfold ingest. destruct v; try apply keeps_always_raise.
    apply keeps_always_bind; [intros st HP; exact HP|].
    intros l. apply keeps_always_bind; [now apply for_each_keeps|].
    intros _. apply keeps_always_ret. }
  rewrite data_unfold. destruct (body_json r) as [v|]; [|apply keeps_always_ret].
  unfold handle. destruct (filter_configured cfg); [|apply Hingest].
  destruct v; try apply keeps_always_raise.
  destruct (negb _ && negb _); [apply keeps_always_ret | apply Hingest].
Qed.

Lemma run_requests_keeps (P : state -> Prop) (cfg : config) (rs : list request) (st : state) :
  (forall d, keeps_always P (record_body cfg d)) -> P st -> P (run_requests cfg rs st).
Proof.
  intros Hbody. revert st. induction rs as [|r rs IH]; intros st HP; [exact HP|].
  cbn [run_requests]. apply IH. now apply data_keeps.
Qed.

End Keeping.

(** ** Capacity *)

Section Capacity.

Context {RT : Runtime}.

Lemma deque_append_bounded {A : Type} (q : list A) (x : A) :
  (length q <= MAX_DATA_POINTS)%nat -> (length (deque_append q x) <= MAX_DATA_POINTS)%nat.
Proof.
  intros H. rewrite deque_append_length.
  destruct (length q <? MAX_DATA_POINTS)%nat eqn:E; [|exact H].
  apply Nat.ltb_lt in E. lia.
Qed.

Lemma upd_within_capacity (c : channel_set) (f : channels -> channels) (st : state) :
  (forall ch, within_capacity ch -> within_capacity (f ch)) ->
  (forall c', within_capacity (sel c' st)) ->
  forall c', within_capacity (sel c' (upd c f st)).
Proof.
  intros Hf Hst c'. pose proof (Hf _ (Hst c)) as Hc.
  destruct c, c'; cbn in *; first [exact Hc | apply (Hst IphoneAccel)
    | apply (Hst IphoneGyro) | apply (Hst WatchAccel) | apply (Hst WatchGyro)].
Qed.

(** X1: from process start, after any sequence of requests, answered or
    not, none of the sixteen deques holds more than [MAX_DATA_POINTS]
    entries. *)
Theorem buffers_within_capacity (cfg : config) (rs : list request) (c : channel_set) :
  within_capacity (sel c (run_requests cfg rs initial_state)).
Proof.
  revert c.
  apply (run_requests_keeps (fun st => forall c, within_capacity (sel c st))).
  - intros d. apply record_body_keeps. intros c conv ts x y z _.
    apply guarded_append_keeps.
    + intros st Hst _. apply upd_within_capacity; [|exact Hst].
      intros ch [Ht [Hx [Hy Hz]]]. repeat split; cbn; auto using deque_append_bounded.
    + intros st a raw v Hst _ _. apply upd_within_capacity; [|exact Hst].
      intros ch [Ht [Hx [Hy Hz]]].
      destruct a; repeat split; cbn; auto using deque_append_bounded.
  - intros c. destruct c; repeat split; cbn; unfold MAX_DATA_POINTS; lia.
Qed.

Lemma deque_extend_from {A : Type} (l q : list A) :
  (length q <= MAX_DATA_POINTS)%nat ->
  deque_extend q l = skipn (length q + length l - MAX_DATA_POINTS) (q ++ l).
Proof.
  unfold deque_extend. revert q. induction l as [|x l IH]; intros q Hq.
  - cbn [fold_left length]. rewrite app_nil_r.
    replace (length q + 0 - MAX_DATA_POINTS)%nat with 0%nat by lia. reflexivity.
  - cbn [fold_left]. rewrite IH by now apply deque_append_bounded.
    rewrite deque_append_length. unfold deque_append.
    destruct (length q <? MAX_DATA_POINTS)%nat eqn:E.
    + rewrite <- app_assoc. cbn [app length]. f_equal. lia.
    + apply Nat.ltb_ge in E. assert (Hlen : length q = MAX_DATA_POINTS) by lia.
      destruct q as [|a q]; [cbn in Hlen; unfold MAX_DATA_POINTS in Hlen; lia|].
      cbn [tl]. rewrite <- app_assoc.
      assert (E1 : (length (a :: q) + length l - MAX_DATA_POINTS = length l)%nat) by lia.
      assert (E2 : (length (a :: q) + length (x :: l) - MAX_DATA_POINTS
                    = S (length l))%nat) by (cbn [length] in *; lia).
      rewrite E1, E2. reflexivity.
Qed.

(** X2: a deque filled by appends from empty holds the most recent
    [MAX_DATA_POINTS] of the appended items, in the order they came: the
    oldest are dropped first. *)
Theorem deque_keeps_most_recent {A : Type} (l : list A) :
  deque_extend [] l = skipn (length l - MAX_DATA_POINTS) l
  /\ length (deque_extend [] l) = Nat.min (length l) MAX_DATA_POINTS.
Proof.
  assert (E : deque_extend [] l = skipn (length l - MAX_DATA_POINTS) l).
  { rewrite deque_extend_from by (cbn; lia). reflexivity. }
  split; [exact E|]. rewrite E, length_skipn. lia.
Qed.

End Capacity.

(** ** What a record touches and what the wrist deques hold *)

Section Frames.

Context {RT : Runtime}.

(** X3: a record writes only to the ChannelSets of its sensor name (the two
    wrist ChannelSets for a wrist-motion name, one handheld ChannelSet for an
    accelerometer or gyroscope name, none for any other name): every other
    ChannelSet is the same after the record, whether it raised or not. *)
Theorem record_writes_only_its_targets (cfg : config) (kv : list (string * pyval))
    (st : state) (c : channel_set) :
  ~ In c (targets (name_of kv)) ->
  sel c (snd (record_body cfg (PDict kv) st)) = sel c st.
Proof.
  intros Hc.
  apply (record_body_keeps (fun s => sel c s = sel c st)); [|reflexivity].
  intros c0 conv ts x y z [Hin _].
  assert (Hne : c <> c0) by (intros ->; contradiction).
  apply guarded_append_keeps.
  - intros s Hs _. now rewrite sel_upd_other.
  - intros s a raw v Hs _ _. now rewrite sel_upd_other.
Qed.

Lemma all_present_in (x y z raw : pyval) :
  all_present (x, y, z) = true -> In raw [x; y; z] -> is_none raw = false.
Proof.
  unfold all_present. intros H Hin.
  apply andb_true_iff in H. destruct H as [H Hz].
  apply andb_true_iff in H. destruct H as [Hx Hy].
  destruct Hin as [<-|[<-|[<-|[]]]]; now apply negb_true_iff.
Qed.

Lemma converted_is_float (cfg : config) (conv : pyval -> result (option float))
    (raw : pyval) (v : option float) :
  conv = _convert_accel cfg \/ conv = _convert_gyro cfg ->
  is_none raw = false -> conv raw = Ok v -> v <> None.
Proof.
  intros [-> | ->] Hraw E; unfold _convert_accel, _convert_gyro in E;
    destruct raw; try discriminate Hraw;
    match type of E with
    | match ?e with Ok _ => _ | Raise _ => _ end = _ =>
        destruct e; [injection E as <-; discriminate | discriminate E]
    end.
Qed.

Lemma deque_append_Forall {A : Type} (P : A -> Prop) (q : list A) (x : A) :
  Forall P q -> P x -> Forall P (deque_append q x).
Proof.
  intros Hq Hx. unfold deque_append.
  destruct (length q <? MAX_DATA_POINTS)%nat; apply Forall_app; split; auto.
  destruct q; [constructor | now inversion Hq].
Qed.

Lemma push_axis_no_none (a : axis) (v : option float) (ch : channels) :
  v <> None -> no_none ch -> no_none (push_axis a v ch).
Proof.
  unfold no_none, all_values. intros Hv H.
  apply Forall_app in H. destruct H as [Hx H].
  apply Forall_app in H. destruct H as [Hy Hz].
  destruct a; cbn; repeat (apply Forall_app; split); auto using deque_append_Forall.
Qed.

(** A record keeps the wrist deques free of [None], however it ends. *)
Lemma record_body_keeps_wrist_floats (cfg : config) (d : pyval) :
  keeps_always (fun st => no_none (watch_accel st) /\ no_none (watch_gyro st))
    (record_body cfg d).
Proof.
  apply record_body_keeps. intros c conv ts x y z [_ [Hconv Hall]].
  apply guarded_append_keeps.
  - intros st Hst _. destruct c; exact Hst.
  - intros st a raw v [Ha Hg] Hin E.
    destruct c; try (split; assumption).
    + assert (Hv : v <> None).
      { apply (converted_is_float cfg conv raw v Hconv); [|exact E].
        apply (all_present_in x y z); [apply Hall; cbn; auto | exact Hin]. }
      split; [now apply push_axis_no_none | exact Hg].
    + assert (Hv : v <> None).
      { apply (converted_is_float cfg conv raw v Hconv); [|exact E].
        apply (all_present_in x y z); [apply Hall; cbn; auto | exact Hin]. }
      split; [exact Ha | now apply push_axis_no_none].
Qed.

(** X4: the two wrist ChannelSets never hold [None]: from process start,
    after any sequence of requests, answered or not, every axis value stored
    for the wrist accelerometer and the wrist gyroscope is a float. *)
Theorem wrist_buffers_hold_floats (cfg : config) (rs : list request) :
  no_none (watch_accel (run_requests cfg rs initial_state))
  /\ no_none (watch_gyro (run_requests cfg rs initial_state)).
Proof.
  apply (run_requests_keeps
           (fun st => no_none (watch_accel st) /\ no_none (watch_gyro st))).
  - apply record_body_keeps_wrist_floats.
  - split; constructor.
Qed.

End Frames.

Lemma record_writes_only_its_targets_witness :
  sel WatchGyro
    (snd (record_body Samples.no_filter Samples.accel_bad_x Samples.one_sample))
  = sel WatchGyro Samples.one_sample.
Proof.
  apply (record_writes_only_its_targets Samples.no_filter
           (Samples.fields_of Samples.accel_bad_x) Samples.one_sample WatchGyro).
  cbn. intros [H|[]]. discriminate H.
Defined.

(** ** Records and batches that are let through or left out *)

Section Admission.

Context {RT : Runtime}.

Lemma skipped_names (kv : list (string * pyval)) (ts : datetime) :
  skipped kv = true -> _to_datetime (ts_raw_of kv) = Some ts ->
  str_in (name_of kv) WRIST_NAMES = false
  /\ str_in (name_of kv) ACCEL_NAMES = false
  /\ str_in (name_of kv) GYRO_NAMES = false.
Proof.
  unfold skipped. intros H E. rewrite E in H. rewrite !str_in_app in H.
  apply negb_true_iff in H.
  apply orb_false_iff in H. destruct H as [Hw H].
  apply orb_false_iff in H. destruct H as [Ha Hg]. auto.
Qed.

(** What [_extract_xyz] turns away: everything that is neither a mapping nor
    a sequence of three items or more. *)
Lemma extract_xyz_none (values : pyval) :
  _extract_xyz values = None <->
  is_dict values = false /\ forall l, values = PList l -> (length l < 3)%nat.
Proof.
  destruct values; cbn; try (split; [split; [reflexivity | discriminate] | reflexivity]).
  - destruct l as [|v0 [|v1 [|v2 l]]]; cbn.
    + split; [split; [reflexivity|] | reflexivity]. intros l' E. injection E as <-. cbn. lia.
    + split; [split; [reflexivity|] | reflexivity]. intros l' E. injection E as <-. cbn. lia.
    + split; [split; [reflexivity|] | reflexivity]. intros l' E. injection E as <-. cbn. lia.
    + split; [discriminate|]. intros [_ H]. specialize (H _ eq_refl). cbn in H. lia.
  - split; [discriminate | intros [H _]; discriminate H].
Qed.

(** X5: a record object is passed over, with the state unchanged and no
    exception, whatever else it holds, when its timestamp is missing or not
    a timestamp, when its sensor name is none of the six known names, when it
    is a wrist-motion record whose values are not a mapping, or when it is
    another record whose values are neither a mapping nor a sequence of three
    items or more. *)
Theorem unusable_record_is_ignored (cfg : config) (kv : list (string * pyval)) (st : state) :
  skipped kv = true
  \/ (str_in (name_of kv) WRIST_NAMES = true /\ is_dict (values_obj_of kv) = false)
  \/ (str_in (name_of kv) WRIST_NAMES = false /\ is_dict (values_obj_of kv) = false
      /\ forall l, values_obj_of kv = PList l -> (length l < 3)%nat) ->
  record_body cfg (PDict kv) st = (Ok tt, st).
Proof.
  intros H. unfold record_body.
  destruct (_to_datetime (ts_raw_of kv)) as [ts|] eqn:Ets; [|reflexivity].
  destruct H as [Hs | [[Hw Hd] | [Hw Hv]]].
  - destruct (skipped_names kv ts Hs Ets) as [Hw [Ha Hg]]. rewrite Hw, Ha, Hg.
    destruct (_extract_xyz _) as [[[x y] z]|]; reflexivity.
  - rewrite Hw. destruct (values_obj_of kv); try discriminate Hd; reflexivity.
  - rewrite Hw. apply extract_xyz_none in Hv. rewrite Hv. reflexivity.
Qed.

(** X6: a parsed batch object is handed to the records loop, exactly as
    with no filter at all, when no device filter is set, when the filter is
    the empty string, when the batch carries no device identifier, or when
    the text of its identifier equals the filter (so the number 123 passes
    the filter "123"). *)
Theorem unfiltered_batch_is_ingested (cfg : config) (r : request)
    (kv : list (string * pyval)) (st : state) :
  body_json r = Some (PDict kv) ->
  WATCH_DEVICE_ID cfg = None
  \/ WATCH_DEVICE_ID cfg = Some ""
  \/ device_id_of kv = PNone
  \/ WATCH_DEVICE_ID cfg = Some (py_str (device_id_of kv)) ->
  data cfg r st = ingest cfg (PDict kv) st.
Proof.
  intros Hbody H. rewrite data_unfold, Hbody. unfold handle, filter_configured.
  destruct H as [H | [H | [H | H]]].
  - rewrite H. reflexivity.
  - rewrite H. reflexivity.
  - destruct (WATCH_DEVICE_ID cfg) as [w|]; [|reflexivity].
    destruct (w =? ""); [reflexivity|]. rewrite H. reflexivity.
  - rewrite H. destruct (py_str (device_id_of kv) =? "") eqn:E; [reflexivity|].
    rewrite String.eqb_refl, andb_false_r. reflexivity.
Qed.

Lemma for_each_app (body : pyval -> M unit) (l1 l2 : list pyval) (st : state) :
  for_each body (l1 ++ l2) st =
    match for_each body l1 st with
    | (Ok _, st1) => for_each body l2 st1
    | (Raise e, st1) => (Raise e, st1)
    end.
Proof.
  revert st. induction l1 as [|d l1 IH]; intros st; [reflexivity|].
  cbn [app for_each]. unfold bind.
  destruct (body d st) as [[u|e] st1]; [apply IH | reflexivity].
Qed.

(** X7: a batch can be cut in two: the records loop over a payload
    [l1 ++ l2] does what the loop over [l1] followed, when that one was
    answered, by the loop over [l2] does; when the first part raises, the
    whole batch raises the same exception from the same state. *)
Theorem batch_splits (cfg : config) (kv kv1 kv2 : list (string * pyval))
    (l1 l2 : list pyval) (st : state) :
  dict_find kv "payload" = Some (PList (l1 ++ l2)) ->
  dict_find kv1 "payload" = Some (PList l1) ->
  dict_find kv2 "payload" = Some (PList l2) ->
  ingest cfg (PDict kv) st =
    match ingest cfg (PDict kv1) st with
    | (Ok _, st1) => ingest cfg (PDict kv2) st1
    | (Raise e, st1) => (Raise e, st1)
    end.
Proof.
  intros H H1 H2. unfold ingest, dict_get_default. rewrite H, H1, H2.
  cbn [py_iter]. unfold bind, lift, ret. rewrite for_each_app.
  destruct (for_each (record_body cfg) l1 st) as [[u|e] st1]; reflexivity.
Qed.

(** X8: the units come from the environment once: with [ACCEL_UNITS] unset
    or empty a float passes [_convert_accel] unchanged, and it is multiplied
    by 9.80665 exactly when the variable, lowered, is "g", "gee" or "grav";
    likewise [GYRO_UNITS] and the factor pi/180 of [_convert_gyro]. *)
Theorem units_from_environment (env : string -> option string) (v : float) :
  _convert_accel (config_of_env env) (PFloat v) =
    Ok (Some match env "ACCEL_UNITS" with
             | Some s =>
                 if str_in (lower s) ["g"; "gee"; "grav"]
                 then (v * 9.80665)%float else v
             | None => v
             end)
  /\ _convert_gyro (config_of_env env) (PFloat v) =
       Ok (Some match env "GYRO_UNITS" with
                | Some s =>
                    if str_in (lower s)
                         ["deg_s"; "deg/s"; "degrees_per_second"; "degrees_s"]
                    then (v * (math_pi / 180.0))%float else v
                | None => v
                end).
Proof.
  unfold _convert_accel, _convert_gyro, accel_is_g, gyro_is_deg, config_of_env, env_or.
  cbn [py_float ACCEL_UNITS GYRO_UNITS]. split.
  - destruct (env "ACCEL_UNITS") as [s|]; [|reflexivity].
    destruct (s =? "") eqn:E; [|reflexivity].
    apply String.eqb_eq in E. subst s. reflexivity.
  - destruct (env "GYRO_UNITS") as [s|]; [|reflexivity].
    destruct (s =? "") eqn:E; [|reflexivity].
    apply String.eqb_eq in E. subst s. reflexivity.
Qed.

End Admission.

Lemma unusable_record_is_ignored_witness :
  record_body Samples.no_filter MoreSamples.accel_bad_time Samples.one_sample
    = (Ok tt, Samples.one_sample)
  /\ record_body Samples.no_filter MoreSamples.wrist_with_list Samples.one_sample
    = (Ok tt, Samples.one_sample)
  /\ record_body Samples.no_filter MoreSamples.accel_short_list Samples.one_sample
    = (Ok tt, Samples.one_sample).
Proof.
  split; [|split].
  - apply (unusable_record_is_ignored Samples.no_filter
             (Samples.fields_of MoreSamples.accel_bad_time)).
    left. reflexivity.
  - apply (unusable_record_is_ignored Samples.no_filter
             (Samples.fields_of MoreSamples.wrist_with_list)).
    right. left. split; reflexivity.
  - apply (unusable_record_is_ignored Samples.no_filter
             (Samples.fields_of MoreSamples.accel_short_list)).
    right. right. split; [reflexivity|]. split; [reflexivity|].
    intros l E. injection E as <-. cbn. lia.
Defined.

Lemma unfiltered_batch_is_ingested_witness :
  data MoreSamples.filter_123
    (Samples.post (PDict (Samples.batch_from (PInt 123) [Samples.accel_good])))
    initial_state
  = ingest MoreSamples.filter_123
      (PDict (Samples.batch_from (PInt 123) [Samples.accel_good])) initial_state.
Proof.
  apply unfiltered_batch_is_ingested.
  - reflexivity.
  - right. right. right. reflexivity.
Defined.

Lemma batch_splits_witness :
  ingest Samples.no_filter (Samples.batch [Samples.accel_good; MoreSamples.gyro_other_keys])
    initial_state
  = match ingest Samples.no_filter (Samples.batch [Samples.accel_good]) initial_state with
    | (Ok _, st1) =>
        ingest Samples.no_filter (Samples.batch [MoreSamples.gyro_other_keys]) st1
    | (Raise e, st1) => (Raise e, st1)
    end.
Proof.
  exact (batch_splits Samples.no_filter
           (Samples.fields_of (Samples.batch [Samples.accel_good; MoreSamples.gyro_other_keys]))
           (Samples.fields_of (Samples.batch [Samples.accel_good]))
           (Samples.fields_of (Samples.batch [MoreSamples.gyro_other_keys]))
           [Samples.accel_good] [MoreSamples.gyro_other_keys] initial_state
           eq_refl eq_refl eq_refl).
Defined.

(** ** Replaying a request *)

Section Replay.

Context {RT : Runtime}.

Lemma peek_last_snoc {A : Type} (q : list A) (x : A) : peek_last (q ++ [x]) = Some x.
Proof.
  induction q as [|a q IH]; [reflexivity|].
  cbn [app]. destruct (q ++ [x]) eqn:E; [now destruct q | exact IH].
Qed.

Lemma peek_last_deque_append {A : Type} (q : list A) (x : A) :
  peek_last (deque_append q x) = Some x.
Proof.
  unfold deque_append. destruct (length q <? MAX_DATA_POINTS)%nat; apply peek_last_snoc.
Qed.

Lemma advances_refl (st : state) : advances st st.
Proof. intros c ts H. exact H. Qed.

Lemma advances_trans (st1 st2 st3 : state) :
  advances st1 st2 -> advances st2 st3 -> advances st1 st3.
Proof. intros H12 H23 c ts H. apply H23, H12, H. Qed.

(** Appending a time that passed the guard turns away every time the deque
    turned away before, and the time itself. *)
Lemma time_guard_after_append (q : list datetime) (ts ts0 : datetime) :
  strict_order ->
  time_guard q ts = true ->
  (time_guard q ts0 = false \/ ts0 = ts) ->
  time_guard (deque_append q ts) ts0 = false.
Proof.
  intros [Hirr Htr] Hg H0. unfold time_guard in *.
  rewrite peek_last_deque_append.
  destruct H0 as [H0 | ->]; [|apply Hirr].
  destruct (peek_last q) as [t|]; [|discriminate].
  destruct (dt_gt ts0 ts) eqn:E; [|reflexivity].
  rewrite <- H0. symmetry. exact (Htr ts0 ts t E Hg).
Qed.

Lemma guarded_append_advances (c : channel_set) (conv : pyval -> result (option float))
    (ts : datetime) (x y z : pyval) (st : state) :
  strict_order -> advances st (snd (guarded_append c conv ts x y z st)).
Proof.
  intros Hso c' ts0 H0.
  destruct (guarded_append_times c conv ts x y z st c') as [E | [Hg E]]; rewrite E.
  - exact H0.
  - apply time_guard_after_append; auto.
Qed.

(** An answered guarded block leaves a state that turns its time away. *)
Lemma guarded_append_blocks (c : channel_set) (conv : pyval -> result (option float))
    (ts : datetime) (x y z : pyval) (st st1 : state) (u : unit) :
  strict_order ->
  guarded_append c conv ts x y z st = (Ok u, st1) ->
  time_guard (ch_time (sel c st1)) ts = false.
Proof.
  intros Hso E.
  destruct (time_guard (ch_time (sel c st)) ts) eqn:Hg.
  - revert E. unfold guarded_append, bind, get_state, modify, lift. rewrite Hg.
    destruct (conv x); [|discriminate]. destruct (conv y); [|discriminate].
    destruct (conv z); [|discriminate]. intros E. injection E as _ <-.
    rewrite !upd_upd, sel_upd_same. cbn. apply time_guard_after_append; auto.
  - rewrite (guarded_append_drop c conv ts x y z st Hg) in E. injection E as _ <-. exact Hg.
Qed.

Lemma guarded_append_replay (c : channel_set) (conv : pyval -> result (option float))
    (ts : datetime) (x y z : pyval) (st st1 st2 : state) (u : unit) :
  strict_order ->
  guarded_append c conv ts x y z st = (Ok u, st1) ->
  advances st1 st2 ->
  guarded_append c conv ts x y z st2 = (Ok tt, st2).
Proof.
  intros Hso E Hadv. apply guarded_append_drop, Hadv.
  exact (guarded_append_blocks c conv ts x y z st st1 u Hso E).
Qed.

Lemma wrist_family_replay (c : channel_set) (conv : pyval -> result (option float))
    (ts : datetime) (xyz : option (pyval * pyval * pyval)) (st st1 st2 : state) (u : unit) :
  strict_order ->
  wrist_family c conv ts xyz st = (Ok u, st1) ->
  advances st1 st2 ->
  wrist_family c conv ts xyz st2 = (Ok tt, st2).
Proof.
  unfold wrist_family. intros Hso E Hadv.
  destruct xyz as [[[x y] z]|]; [|reflexivity].
  destruct (all_present (x, y, z)); [|reflexivity].
  exact (guarded_append_replay c conv ts x y z st st1 st2 u Hso E Hadv).
Qed.

Lemma record_body_advances (cfg : config) (d : pyval) (st : state) :
  strict_order -> advances st (snd (record_body cfg d st)).
Proof.
  intros Hso.
  apply (record_body_keeps (fun s => advances st s)); [|apply advances_refl].
  intros c conv ts x y z _ s Hs.
  apply (advances_trans st s); [exact Hs | now apply guarded_append_advances].
Qed.

Lemma record_body_replay (cfg : config) (d : pyval) (st st1 st2 : state) (u : unit) :
  strict_order ->
  record_body cfg d st = (Ok u, st1) ->
  advances st1 st2 ->
  record_body cfg d st2 = (Ok tt, st2).
Proof.
  intros Hso E Hadv. unfold record_body in *.
  destruct d as [| | | | | |kv]; try discriminate E.
  destruct (_to_datetime (ts_raw_of kv)) as [ts|]; [|reflexivity].
  destruct (str_in (name_of kv) WRIST_NAMES).
  - unfold bind in E |- *.
    destruct (wrist_family WatchAccel _ ts _ st) as [[ua|e] sa] eqn:Ea; [|discriminate E].
    assert (Hsa : advances sa st1).
    { replace st1 with (snd (wrist_family WatchGyro (_convert_gyro cfg) ts
                               (_extract_wrist_motion_gyro (values_obj_of kv)) sa))
        by now rewrite E.
      unfold wrist_family.
      destruct (_extract_wrist_motion_gyro _) as [[[x y] z]|]; [|apply advances_refl].
      destruct (all_present (x, y, z)); [|apply advances_refl].
      now apply guarded_append_advances. }
    rewrite (wrist_family_replay WatchAccel _ ts _ st sa st2 ua Hso Ea
               (advances_trans sa st1 st2 Hsa Hadv)).
    exact (wrist_family_replay WatchGyro _ ts _ sa st1 st2 u Hso E Hadv).
  - destruct (_extract_xyz _) as [[[x y] z]|]; [|reflexivity].
    destruct (str_in (name_of kv) ACCEL_NAMES).
    + exact (guarded_append_replay _ _ ts x y z st st1 st2 u Hso E Hadv).
    + destruct (str_in (name_of kv) GYRO_NAMES); [|reflexivity].
      exact (guarded_append_replay _ _ ts x y z st st1 st2 u Hso E Hadv).
Qed.

Lemma for_each_advances (cfg : config) (l : list pyval) (st : state) :
  strict_order -> advances st (snd (for_each (record_body cfg) l st)).
Proof.
  intros Hso.
  apply (for_each_keeps (fun s => advances st s)); [|apply advances_refl].
  intros d s Hs. apply (advances_trans st s); [exact Hs | now apply record_body_advances].
Qed.

Lemma for_each_replay (cfg : config) (l : list pyval) (st st1 st2 : state) (u : unit) :
  strict_order ->
  for_each (record_body cfg) l st = (Ok u, st1) ->
  advances st1 st2 ->
  for_each (record_body cfg) l st2 = (Ok tt, st2).
Proof.
  intros Hso. revert st. induction l as [|d l IH]; intros st E Hadv; [reflexivity|].
  cbn [for_each] in *. unfold bind in *.
  destruct (record_body cfg d st) as [[ud|e] sd] eqn:Ed; [|discriminate E].
  assert (Hsd : advances sd st1).
  { replace st1 with (snd (for_each (record_body cfg) l sd)) by now rewrite E.
    now apply for_each_advances. }
  rewrite (record_body_replay cfg d st sd st2 ud Hso Ed (advances_trans sd st1 st2 Hsd Hadv)).
  exact (IH sd E Hadv).
Qed.

(** X9: with [>] a strict order on datetimes, posting an answered request
    once more changes nothing: the second pass finds every sample stale,
    appends nothing, raises nothing and is answered as the first. *)
Theorem answered_request_replays_as_noop (cfg : config) (r : request)
    (st st1 : state) (resp : response) :
  strict_order ->
  data cfg r st = (Ok resp, st1) ->
  data cfg r st1 = (Ok resp, st1).
Proof.
  intros Hso. rewrite !data_unfold.
  destruct (body_json r) as [v|]; [|intros E; injection E as <- <-; reflexivity].
  assert (Hingest : ingest cfg v st = (Ok resp, st1) -> ingest cfg v st1 = (Ok resp, st1)).
  { unfold ingest. destruct v; try discriminate.
    unfold bind, lift. destruct (py_iter _) as [l|]; [|discriminate].
    destruct (for_each (record_body cfg) l st) as [[u|e] s] eqn:E; [|discriminate].
    intros E'. injection E' as <- <-.
    now rewrite (for_each_replay cfg l st s s u Hso E (advances_refl s)). }
  unfold handle. destruct (filter_configured cfg); [|exact Hingest].
  destruct v; try discriminate.
  destruct (negb _ && negb _); [|exact Hingest].
  intros E. injection E as <- <-. reflexivity.
Qed.

End Replay.

Lemma utc_strict_order : strict_order (RT := Utc.runtime).
Proof.
  split; cbn.
  - intros t. rewrite Z.gtb_ltb. apply Z.ltb_irrefl.
  - intros a b c Hab Hbc. rewrite Z.gtb_ltb in Hab, Hbc |- *.
    apply Z.ltb_lt in Hab, Hbc. apply Z.ltb_lt. lia.
Qed.

Lemma answered_request_replays_as_noop_witness :
  data Samples.no_filter (Samples.post (Samples.batch MoreSamples.mixed_records))
    (snd (data Samples.no_filter (Samples.post (Samples.batch MoreSamples.mixed_records))
            Samples.one_sample))
  = (Ok Success,
     snd (data Samples.no_filter (Samples.post (Samples.batch MoreSamples.mixed_records))
            Samples.one_sample)).
Proof.
  apply (answered_request_replays_as_noop Samples.no_filter _ Samples.one_sample).
  - exact utc_strict_order.
  - reflexivity.
Defined.

(** ** The graph callback *)

Section Rendering.

Context {RT : Runtime}.

Lemma min_from_floats (rest : list (option float)) (best : option float) :
  Forall (fun v => v <> None) (best :: rest) ->
  exists m, min_from best rest = Ok (Some m).
Proof.
  revert best. induction rest as [|item rest IH]; intros best H.
  - pose proof (Forall_inv H) as Hb. cbn in Hb.
    destruct best as [b|]; [exists b; reflexivity | contradiction].
  - pose proof (Forall_inv H) as Hb. pose proof (Forall_inv (Forall_inv_tail H)) as Hi.
    pose proof (Forall_inv_tail (Forall_inv_tail H)) as Hr. cbn in Hb, Hi.
    destruct best as [b|]; [|contradiction]. destruct item as [i|]; [|contradiction].
    cbn. destruct (i <? b)%float; apply IH; constructor; auto.
Qed.

Lemma max_from_floats (rest : list (option float)) (best : option float) :
  Forall (fun v => v <> None) (best :: rest) ->
  exists m, max_from best rest = Ok (Some m).
Proof.
  revert best. induction rest as [|item rest IH]; intros best H.
  - pose proof (Forall_inv H) as Hb. cbn in Hb.
    destruct best as [b|]; [exists b; reflexivity | contradiction].
  - pose proof (Forall_inv H) as Hb. pose proof (Forall_inv (Forall_inv_tail H)) as Hi.
    pose proof (Forall_inv_tail (Forall_inv_tail H)) as Hr. cbn in Hb, Hi.
    destruct best as [b|]; [|contradiction]. destruct item as [i|]; [|contradiction].
    cbn. destruct (b <? i)%float; apply IH; constructor; auto.
Qed.

(** [min] of two items or more returns only when none of them is [None]. *)
Lemma min_from_ok_inv (rest : list (option float)) (best m : option float) :
  min_from best rest = Ok m ->
  rest = [] \/ Forall (fun v => v <> None) (best :: rest).
Proof.
  revert best. induction rest as [|item rest IH]; intros best E; [now left|].
  right. cbn in E.
  destruct item as [i|], best as [b|]; try discriminate E. cbn in E.
  assert (Hrest : Forall (fun v : option float => v <> None) rest).
  { destruct (i <? b)%float; destruct (IH _ E) as [-> | H]; try constructor;
      inversion H; assumption. }
  repeat constructor; try discriminate; exact Hrest.
Qed.

(** One figure is built exactly when the time deque is empty, or the axis
    deques together hold a value and no [None]. *)
Lemma graph_of_renders (txt : figure_texts) (c : channels) :
  is_ok (graph_of txt c) = true <->
  ch_time c = [] \/ (all_values c <> [] /\ no_none c).
Proof.
  unfold graph_of, no_none. destruct (ch_time c) as [|t0 ts].
  - split; [now left | reflexivity].
  - split.
    + intros H. right.
      destruct (all_values c) as [|v rest]; [discriminate H|]. split; [discriminate|].
      cbn [py_min py_max] in H.
      destruct (min_from v rest) as [ymin|] eqn:Emin; [|discriminate H].
      destruct (min_from_ok_inv rest v ymin Emin) as [-> | Hall]; [|exact Hall].
      cbn in Emin. injection Emin as <-. cbn in H.
      destruct v; [repeat constructor; discriminate | discriminate H].
    + intros [H | [Hne Hall]]; [discriminate H|].
      destruct (all_values c) as [|v rest]; [contradiction|]. cbn [py_min py_max].
      destruct (min_from_floats rest v Hall) as [lo ->].
      destruct (max_from_floats rest v Hall) as [hi ->].
      reflexivity.
Qed.

(** The callback returns exactly when each of its four figures is built. *)
Lemma update_graph_ok (st : state) :
  is_ok (update_graph st) = true <->
  forall c : channel_set, is_ok (graph_of (texts_of c) (sel c st)) = true.
Proof.
  unfold update_graph. split.
  - intros H c.
    destruct (graph_of _ (iphone_accel st)) eqn:E1; [|discriminate H].
    destruct (graph_of _ (iphone_gyro st)) eqn:E2; [|discriminate H].
    destruct (graph_of _ (watch_accel st)) eqn:E3; [|discriminate H].
    destruct (graph_of _ (watch_gyro st)) eqn:E4; [|discriminate H].
    destruct c; cbn [sel]; [rewrite E1 | rewrite E2 | rewrite E3 | rewrite E4]; reflexivity.
  - intros H.
    pose proof (H IphoneAccel) as E1. pose proof (H IphoneGyro) as E2.
    pose proof (H WatchAccel) as E3. pose proof (H WatchGyro) as E4. cbn [sel] in *.
    destruct (graph_of _ (iphone_accel st)); [|discriminate E1].
    destruct (graph_of _ (iphone_gyro st)); [|discriminate E2].
    destruct (graph_of _ (watch_accel st)); [|discriminate E3].
    destruct (graph_of _ (watch_gyro st)); [|discriminate E4].
    reflexivity.
Qed.

(** X10: [update_graph] returns its four figures exactly when, in each of
    the four ChannelSets, the time deque is empty or the three axis deques
    together hold at least one value and no [None]. Otherwise it raises:
    [min] of an empty list, or a comparison or subtraction with [None]. *)
Theorem update_graph_renders_iff (st : state) :
  is_ok (update_graph st) = true <->
  forall c : channel_set,
    ch_time (sel c st) = [] \/ (all_values (sel c st) <> [] /\ no_none (sel c st)).
Proof.
  rewrite update_graph_ok. split; intros H c.
  - apply (graph_of_renders (texts_of c)), H.
  - apply graph_of_renders, H.
Qed.

Lemma increasing_all_later (q : list datetime) (t0 : datetime) :
  strict_order -> increasing (t0 :: q) -> Forall (fun t => dt_gt t t0 = true) q.
Proof.
  intros [_ Htr]. revert t0. induction q as [|t1 q IH]; intros t0 H; [constructor|].
  destruct H as [H01 H1]. constructor; [exact H01|].
  eapply Forall_impl; [|exact (IH t1 H1)].
  intros t Ht. exact (Htr t t1 t0 Ht H01).
Qed.

Lemma dt_min_from_head (q : list datetime) (t0 : datetime) :
  Forall (fun t => dt_gt t0 t = false) q -> dt_min_from t0 q = t0.
Proof.
  induction q as [|t q IH]; intros H; [reflexivity|].
  inversion H as [|? ? Ht Hq]; subst. cbn. rewrite Ht. now apply IH.
Qed.

Lemma dt_max_from_last (q : list datetime) (t0 : datetime) :
  increasing (t0 :: q) -> peek_last (t0 :: q) = Some (dt_max_from t0 q).
Proof.
  revert t0. induction q as [|t1 q IH]; intros t0 H; [reflexivity|].
  destruct H as [H01 H1]. cbn [dt_max_from]. rewrite H01.
  rewrite <- (IH t1 H1). reflexivity.
Qed.

(** X11: with [>] a strict order and the stored times increasing, as the
    route keeps them, the x-axis range of a figure that is built runs from
    the oldest stored time, the head of the time deque, to the newest, its
    last entry. *)
Theorem x_range_is_oldest_to_newest (txt : figure_texts) (c : channels) (fig : figure)
    (t0 tn : datetime) (q : list datetime) :
  strict_order ->
  increasing (ch_time c) ->
  ch_time c = t0 :: q ->
  peek_last (ch_time c) = Some tn ->
  graph_of txt c = Ok fig ->
  fig_xrange fig = Some (t0, tn).
Proof.
  intros Hso Hinc Hq Hlast E. unfold graph_of in E. rewrite Hq in *.
  destruct (py_min _) as [ymin|]; [|discriminate E].
  destruct (py_max _) as [ymax|]; [|discriminate E].
  destruct (pad_of _ _) as [pad|]; [|discriminate E].
  destruct (y_range_of _ _ _) as [yr|]; [|discriminate E].
  injection E as <-. cbn [fig_xrange].
  rewrite (dt_max_from_last q t0 Hinc) in Hlast. injection Hlast as <-.
  rewrite dt_min_from_head; [reflexivity|].
  eapply Forall_impl; [|exact (increasing_all_later q t0 Hso Hinc)].
  intros t Ht. destruct Hso as [Hirr Htr].
  destruct (dt_gt t0 t) eqn:E; [|reflexivity].
  rewrite <- (Hirr t). symmetry. exact (Htr t t0 t Ht E).
Qed.

End Rendering.

Lemma x_range_is_oldest_to_newest_witness :
  exists fig,
    graph_of (texts_of IphoneAccel) MoreSamples.three_samples = Ok fig
    /\ fig_xrange fig = Some (1700000000000000%Z, 1700000002500000%Z).
Proof.
  eexists. split; [reflexivity|].
  apply (x_range_is_oldest_to_newest (texts_of IphoneAccel) MoreSamples.three_samples _
           1700000000000000%Z 1700000002500000%Z
           [1700000001000000%Z; 1700000002500000%Z] utc_strict_order).
  - cbn. auto.
  - reflexivity.
  - reflexivity.
  - reflexivity.
Defined.

(** ** From the route to the graphs *)

Section EndToEnd.

Context {RT : Runtime}.

Lemma run_requests_synchronized_from (cfg : config) (rs : list request) (st : state) :
  synchronized st -> all_answered cfg rs st = true ->
  synchronized (run_requests cfg rs st).
Proof.
  revert st. induction rs as [|r rs IH]; intros st Hst Hok; [exact Hst|].
  cbn [all_answered] in Hok. apply andb_true_iff in Hok. destruct Hok as [Hr Hrs].
  cbn [run_requests]. apply IH; [|exact Hrs].
  destruct (data cfg r st) as [[a|e] st'] eqn:E; [|discriminate].
  exact (data_synchronized cfg r st a st' Hst E).
Qed.

Lemma same_lengths_values (c : channels) :
  same_lengths c -> (ch_time c = [] <-> all_values c = []).
Proof.
  intros [Hx [Hy Hz]]. unfold all_values. split; intros H.
  - rewrite H in *.
    destruct (ch_x c), (ch_y c), (ch_z c); try discriminate; reflexivity.
  - apply app_eq_nil in H. destruct H as [H _]. rewrite H in Hx.
    destruct (ch_time c); [reflexivity | discriminate].
Qed.

(** X12: from process start, after requests that were all answered,
    [update_graph] returns its four figures exactly when no [None] is stored
    in the two handheld ChannelSets; a stored [None] makes it raise. *)
Theorem graphs_render_unless_none_stored (cfg : config) (rs : list request) :
  all_answered cfg rs initial_state = true ->
  (is_ok (update_graph (run_requests cfg rs initial_state)) = true <->
   no_none (iphone_accel (run_requests cfg rs initial_state))
   /\ no_none (iphone_gyro (run_requests cfg rs initial_state))).
Proof.
  intros Hok.
  pose proof (run_requests_synchronized_from cfg rs initial_state
                initial_state_synchronized Hok) as Hsync.
  pose proof (run_requests_keeps
                (fun st => no_none (watch_accel st) /\ no_none (watch_gyro st))
                cfg rs initial_state (record_body_keeps_wrist_floats cfg)
                (conj (Forall_nil _) (Forall_nil _))) as [Hwa Hwg].
  set (st := run_requests cfg rs initial_state) in *.
  assert (Hcase : forall c, no_none (sel c st) ->
            ch_time (sel c st) = [] \/ (all_values (sel c st) <> [] /\ no_none (sel c st))).
  { intros c Hc. destruct (ch_time (sel c st)) eqn:E; [now left|]. right.
    split; [|exact Hc]. intros Hnil.
    apply (same_lengths_values _ (Hsync c)) in Hnil. congruence. }
  assert (Hback : forall c,
            ch_time (sel c st) = [] \/ (all_values (sel c st) <> [] /\ no_none (sel c st)) ->
            no_none (sel c st)).
  { intros c [H | [_ H]]; [|exact H].
    apply (same_lengths_values _ (Hsync c)) in H. unfold no_none. rewrite H. constructor. }
  rewrite update_graph_ok. split.
  - intros H.
    split.
    + apply (Hback IphoneAccel), (graph_of_renders (texts_of IphoneAccel)), H.
    + apply (Hback IphoneGyro), (graph_of_renders (texts_of IphoneGyro)), H.
  - intros [Ha Hg] c. apply graph_of_renders, Hcase. destruct c; assumption.
Qed.

End EndToEnd.

Lemma graphs_render_unless_none_stored_witness :
  (is_ok (update_graph
            (run_requests Samples.no_filter
               [Samples.post (Samples.batch [Samples.accel_without_z])] initial_state))
   = true <->
   no_none (iphone_accel
              (run_requests Samples.no_filter
                 [Samples.post (Samples.batch [Samples.accel_without_z])] initial_state))
   /\ no_none (iphone_gyro
                 (run_requests Samples.no_filter
                    [Samples.post (Samples.batch [Samples.accel_without_z])] initial_state)))
  /\ update_graph
       (run_requests Samples.no_filter
          [Samples.post (Samples.batch [Samples.accel_without_z])] initial_state)
     = Raise TypeError.
Proof.
  split.
  - apply (graphs_render_unless_none_stored Samples.no_filter
             [Samples.post (Samples.batch [Samples.accel_without_z])]).
    reflexivity.
  - reflexivity.
Defined.

(** ** A payload that is not a list *)

(** X13: the records loop iterates over whatever [payload] holds. A payload
    that is [None], a boolean or a number cannot be iterated: [TypeError].
    An empty string or an empty object gives no record: success. A string or
    an object that is not empty yields strings, which have no [get]:
    [AttributeError]. In each case no buffer is touched. *)
Theorem payload_must_be_a_list {RT : Runtime} (cfg : config)
    (kv : list (string * pyval)) (v : pyval) (st : state) :
  dict_find kv "payload" = Some v ->
  (forall l, v <> PList l) ->
  ingest cfg (PDict kv) st =
    (match v with
     | PStr "" | PDict [] => Ok Success
     | PStr _ | PDict _ => Raise AttributeError
     | _ => Raise TypeError
     end, st).
Proof.
  intros Hv Hl. unfold ingest, dict_get_default. rewrite Hv.
  destruct v as [| | | |s|l|d]; try reflexivity.
  - destruct s; reflexivity.
  - contradiction (Hl l eq_refl).
  - destruct d as [|[k v] d]; reflexivity.
Qed.

Lemma payload_must_be_a_list_witness :
  ingest Samples.no_filter (PDict [("payload", PInt 5)]) Samples.one_sample
    = (Raise TypeError, Samples.one_sample)
  /\ ingest Samples.no_filter (PDict [("payload", Samples.accel_good)]) Samples.one_sample
    = (Raise AttributeError, Samples.one_sample).
Proof.
  split.
  - apply (payload_must_be_a_list Samples.no_filter [("payload", PInt 5)] (PInt 5));
      [reflexivity | discriminate].
  - apply (payload_must_be_a_list Samples.no_filter
             [("payload", Samples.accel_good)] Samples.accel_good);
      [reflexivity | discriminate].
Defined.

Lemma run_requests_synchronized_witness :
  synchronized
    (run_requests Samples.no_filter
       [Samples.post (Samples.batch [Samples.accel_good]);
        Samples.post (Samples.batch [PDict Samples.wrist_record; Samples.accel_without_z])]
       initial_state).
Proof.
  apply (run_requests_synchronized Samples.no_filter
           [Samples.post (Samples.batch [Samples.accel_good]);
            Samples.post (Samples.batch [PDict Samples.wrist_record;
                                         Samples.accel_without_z])]).
  reflexivity.
Defined.

(** ** The y-axis range of a flat signal *)

Section FlatSignal.

Context {RT : Runtime}.





End FlatSignal.

